(** * apple-reminders-mcp: the reminders helper and its tool layer

    A shallow embedding of the Swift EventKit helper (EventKitManager and the
    sub-commands of reminders-helper), of the AppleScript based tools of
    src/index.ts and of the [get_reminders] tool of the server that spawns
    the helper, followed by the properties of the resolution, mutation and
    serialization layer.

    Modelling conventions:
    - a Swift [String] is the sequence of the bytes of its UTF-8 encoding;
      [==] is equality of these sequences;
    - a [Date] is an integer time stamp; a [Double] is a binary floating point
      datum ([spec_float]) that the helper only stores and copies;
    - EventKit objects are reference objects: a fetched reminder is modelled by
      its position in the store together with its in-memory value, mutations
      change the in-memory value only, and [save] commits that value at the
      position it was fetched from;
    - what Foundation and the store decide on their own (date formatting, the
      calendar, the case mapping of [lowercased()], a refused commit) is the
      interface [Platform]; the osascript
      process is a parameter of the tool layer. *)

From Stdlib Require Import ZArith String Ascii List Lia Bool.
From Stdlib Require Import Floats.SpecFloat.
From stdpp Require Import base option list strings pretty.

Open Scope string_scope.
Open Scope list_scope.
Open Scope Z_scope.

(** ** Foundation and CoreLocation data *)

Definition Date := Z.
Definition Double := spec_float.

#[global] Instance Double_eq_dec : EqDecision Double.
Proof. solve_decision. Defined.

Record DateComponents := mkDateComponents {
  year : Z; month : Z; day : Z; hour : Z; minute : Z
}.

#[global] Instance DateComponents_eq_dec : EqDecision DateComponents.
Proof. solve_decision. Defined.

Module CLLocation.
Record t := make { latitude : Double; longitude : Double }.
End CLLocation.

#[global] Instance CLLocation_eq_dec : EqDecision CLLocation.t.
Proof. solve_decision. Defined.

(** ** EventKit entities *)

Module EKStructuredLocation.
Record t := make {
    title : option string;
    geoLocation : option CLLocation.t;
    radius : Double
  }.
End EKStructuredLocation.

#[global] Instance EKStructuredLocation_eq_dec : EqDecision EKStructuredLocation.t.
Proof. solve_decision. Defined.

Inductive EKAlarmProximity := ProximityNone | ProximityEnter | ProximityLeave.

#[global] Instance EKAlarmProximity_eq_dec : EqDecision EKAlarmProximity.
Proof. solve_decision. Defined.

Module EKAlarm.
Record t := make {
    absoluteDate : option Date;
    structuredLocation : option EKStructuredLocation.t;
    proximity : EKAlarmProximity
  }.

(** [EKAlarm(absoluteDate:)] *)
Definition withAbsoluteDate (d : Date) : t :=
    make (Some d) None ProximityNone.

(** [EKAlarm()] followed by the two assignments of set-location. *)
Definition withLocation (loc : EKStructuredLocation.t) (p : EKAlarmProximity) : t :=
    make None (Some loc) p.
End EKAlarm.

#[global] Instance EKAlarm_eq_dec : EqDecision EKAlarm.t.
Proof. solve_decision. Defined.

Inductive EKRecurrenceFrequency := Daily | Weekly | Monthly | Yearly.

#[global] Instance EKRecurrenceFrequency_eq_dec : EqDecision EKRecurrenceFrequency.
Proof. solve_decision. Defined.

Inductive EKWeekday :=
  Sunday | Monday | Tuesday | Wednesday | Thursday | Friday | Saturday.

#[global] Instance EKWeekday_eq_dec : EqDecision EKWeekday.
Proof. solve_decision. Defined.

Definition rawValue (d : EKWeekday) : Z :=
  match d with
  | Sunday => 1 | Monday => 2 | Tuesday => 3 | Wednesday => 4
  | Thursday => 5 | Friday => 6 | Saturday => 7
  end.

Module EKRecurrenceEnd.
Record t := make { endDate : option Date; occurrenceCount : Z }.

(** [EKRecurrenceEnd(occurrenceCount:)] *)
Definition withOccurrenceCount (n : Z) : t := make None n.
(** [EKRecurrenceEnd(end:)] *)
Definition withEnd (d : Date) : t := make (Some d) 0.
End EKRecurrenceEnd.

#[global] Instance EKRecurrenceEnd_eq_dec : EqDecision EKRecurrenceEnd.t.
Proof. solve_decision. Defined.

Module EKRecurrenceRule.
Record t := make {
    frequency : EKRecurrenceFrequency;
    interval : Z;
    recurrenceEnd : option EKRecurrenceEnd.t;
    daysOfTheWeek : option (list EKWeekday)
  }.

(** [EKRecurrenceRule(recurrenceWith:interval:end:)] *)
Definition recurrenceWith (f : EKRecurrenceFrequency) (i : Z)
      (e : option EKRecurrenceEnd.t) : t :=
    make f i e None.
End EKRecurrenceRule.

#[global] Instance EKRecurrenceRule_eq_dec : EqDecision EKRecurrenceRule.t.
Proof. solve_decision. Defined.

Module EKReminder.
Record t := make {
    title : option string;
    notes : option string;
    isCompleted : bool;
    dueDateComponents : option DateComponents;
    priority : Z;
    alarms : option (list EKAlarm.t);
    recurrenceRules : option (list EKRecurrenceRule.t)
  }.

Definition set_title (v : option string) (r : t) : t :=
    make v (notes r) (isCompleted r) (dueDateComponents r) (priority r)
         (alarms r) (recurrenceRules r).
Definition set_notes (v : option string) (r : t) : t :=
    make (title r) v (isCompleted r) (dueDateComponents r) (priority r)
         (alarms r) (recurrenceRules r).
Definition set_dueDateComponents (v : option DateComponents) (r : t) : t :=
    make (title r) (notes r) (isCompleted r) v (priority r)
         (alarms r) (recurrenceRules r).
Definition set_priority (v : Z) (r : t) : t :=
    make (title r) (notes r) (isCompleted r) (dueDateComponents r) v
         (alarms r) (recurrenceRules r).
Definition set_alarms (v : option (list EKAlarm.t)) (r : t) : t :=
    make (title r) (notes r) (isCompleted r) (dueDateComponents r) (priority r)
         v (recurrenceRules r).
Definition set_recurrenceRules (v : option (list EKRecurrenceRule.t)) (r : t) : t :=
    make (title r) (notes r) (isCompleted r) (dueDateComponents r) (priority r)
         (alarms r) v.

(** The alarms and rules of a reminder as plain sequences ([nil] reads as
      the empty sequence). *)
Definition alarmList (r : t) : list EKAlarm.t := default [] (alarms r).
Definition ruleList (r : t) : list EKRecurrenceRule.t :=
    default [] (recurrenceRules r).

(** [hasRecurrenceRules] of EKCalendarItem. *)
Definition hasRecurrenceRules (r : t) : bool :=
    match recurrenceRules r with
    | Some (_ :: _) => true
    | _ => false
    end.
End EKReminder.

#[global] Instance EKReminder_eq_dec : EqDecision EKReminder.t.
Proof. solve_decision. Defined.

(** A reminder list of the store.  [reminders] is what the store hands to the
    completion block of [fetchReminders(matching:)] for this calendar: [None]
    when the fetch yields nil. *)
Module EKCalendar.
Record t := make {
    title : string;
    reminders : option (list EKReminder.t)
  }.
End EKCalendar.

Module EKEventStore.
Record t := make {
    accessGranted : bool;
    calendars : list EKCalendar.t
  }.
End EKEventStore.

(** The identity of a fetched reminder: the position of its calendar and its
    own position in that calendar. *)
Definition Ref : Type := nat * nat.

(** ** Errors and JSON output models (EventKitManager.swift, Models.swift) *)

Inductive RemindersError :=
| accessDenied
| listNotFound (name : string)
| reminderNotFound (name : string)
| fetchFailed
| saveFailed (msg : string)
| invalidDate (str : string).

Record RecurrenceInfo := mkRecurrenceInfo {
  ri_frequency : string;
  ri_interval : Z;
  ri_endDate : option string;
  ri_endCount : option Z;
  ri_daysOfWeek : option (list Z)
}.

Record LocationInfo := mkLocationInfo {
  li_title : option string;
  li_latitude : Double;
  li_longitude : Double;
  li_radius : Double;
  li_proximity : string
}.

Record ReminderOutput := mkReminderOutput {
  ro_title : string;
  ro_body : option string;
  ro_completed : bool;
  ro_dueDate : option string;
  ro_priority : Z;
  ro_flagged : bool;
  ro_hasRecurrence : bool;
  ro_recurrence : option RecurrenceInfo;
  ro_hasLocation : bool;
  ro_location : option LocationInfo
}.

Record SuccessOutput := mkSuccessOutput {
  success : bool;
  message : string
}.

(** What [outputJSON] is applied to. *)
Inductive Output :=
| OutLists (lists : list string)
| OutReminders (reminders : list ReminderOutput)
| OutRecurrence (info : RecurrenceInfo)
| OutLocation (info : LocationInfo)
| OutSuccess (out : SuccessOutput).

(** ** The platform interface

    Foundation's date formatter (format "yyyy-MM-dd HH:mm", POSIX locale),
    current calendar and Unicode case mapping, and the store's verdict on a
    commit, are not code of the repository: the helper is parameterised by
    them. *)

Class Platform := {
  (** [dateFormatter.date(from:)] *)
  dateFromString : string -> option Date;
  (** [dateFormatter.string(from:)] *)
  stringFromDate : Date -> string;
  (** [Calendar.current.dateComponents([.year, .month, .day, .hour, .minute], from:)] *)
  dateComponentsFrom : Date -> DateComponents;
  (** [Calendar.current.date(from:)] *)
  dateFromComponents : DateComponents -> option Date;
  (** [String.lowercased()] *)
  lowercased : string -> string;
  (** the [localizedDescription] of the error [store.save(_, commit: true)]
      raises, if it raises one *)
  commitError : EKEventStore.t -> EKReminder.t -> option string
}.

(** ** One run of the helper process

    A sub-command runs against the live store, talks to it through the
    gateway calls recorded in [calls], prints JSON values on [stdout] and
    either returns or throws. *)

Inductive StoreCall :=
| CallRequestAccess
| CallCalendars
| CallFetchReminders (calendar : nat)
| CallSave (ref : Ref) (reminder : EKReminder.t).

Record World := mkWorld {
  store : EKEventStore.t;
  calls : list StoreCall;
  stdout : list Output
}.

Inductive Result (A : Type) :=
| Throw (e : RemindersError)
| Return (a : A).
Arguments Throw {A} e.
Arguments Return {A} a.

Definition Cmd (A : Type) : Type := World -> Result A * World.

#[global] Instance Cmd_ret : MRet Cmd := fun A a w => (Return a, w).

#[global] Instance Cmd_bind : MBind Cmd := fun A B f c w =>
  match c w with
  | (Throw e, w') => (Throw e, w')
  | (Return a, w') => f a w'
  end.

Definition throw {A : Type} (e : RemindersError) : Cmd A :=
  fun w => (Throw e, w).

Definition getStore : Cmd EKEventStore.t :=
  fun w => (Return (store w), w).

Definition putStore (st : EKEventStore.t) : Cmd unit :=
  fun w => (Return tt, mkWorld st (calls w) (stdout w)).

Definition call (c : StoreCall) : Cmd unit :=
  fun w => (Return tt, mkWorld (store w) (calls w ++ [c]) (stdout w)).

(** [outputJSON]: encode the value and print it.  The encoder accepts every
    value of the output models but a location whose numbers are not finite
    ([encodableLocation] below); what is proved of a run that prints a
    location is stated for the values it accepts. *)
Definition outputJSON (o : Output) : Cmd unit :=
  fun w => (Return tt, mkWorld (store w) (calls w) (stdout w ++ [o])).

(** A fresh helper process started on the store [st]. *)
Definition launch (cmd : Cmd unit) (st : EKEventStore.t) : Result unit * World :=
  cmd (mkWorld st [] []).

(** ** String helpers *)

(** The case mapping of the ASCII letters, which is what [lowercased()] does
    to a string of ASCII characters. *)
Definition lowercasedChar (c : ascii) : ascii :=
  let n := nat_of_ascii c in
  if ((65 <=? n) && (n <=? 90))%nat then ascii_of_nat (n + 32) else c.

Fixpoint lowercasedASCII (s : string) : string :=
  match s with
  | EmptyString => EmptyString
  | String c rest => String (lowercasedChar c) (lowercasedASCII rest)
  end.

(** Swift's [??] on an optional string. *)
Definition orElse (o : option string) (d : string) : string := default d o.

(** The line feed of the Swift literal "\n". *)
Definition LF : string := String (ascii_of_nat 10) EmptyString.

(** ** Collections of EventKit objects *)

(** Removing one object from an item's collection: the first element equal
    to it goes, the others stay in order. *)
Fixpoint removeObject {A : Type} `{EqDecision A} (x : A) (l : list A) : list A :=
  match l with
  | [] => []
  | y :: rest => if decide (x = y) then rest else y :: removeObject x rest
  end.

Definition removeAlarm (a : EKAlarm.t) (r : EKReminder.t) : EKReminder.t :=
  EKReminder.set_alarms (removeObject a <$> EKReminder.alarms r) r.

Definition addAlarm (a : EKAlarm.t) (r : EKReminder.t) : EKReminder.t :=
  EKReminder.set_alarms (Some (EKReminder.alarmList r ++ [a])) r.

Definition removeRecurrenceRule (x : EKRecurrenceRule.t) (r : EKReminder.t)
    : EKReminder.t :=
  EKReminder.set_recurrenceRules (removeObject x <$> EKReminder.recurrenceRules r) r.

Definition addRecurrenceRule (x : EKRecurrenceRule.t) (r : EKReminder.t)
    : EKReminder.t :=
  EKReminder.set_recurrenceRules (Some (EKReminder.ruleList r ++ [x])) r.

(** [if let existing = target.alarms { for a in existing where p(a) { target.removeAlarm(a) } }]:
    the loop runs over the sequence read before it starts. *)
Definition removeAlarmsWhere (p : EKAlarm.t -> bool) (target : EKReminder.t)
    : EKReminder.t :=
  match EKReminder.alarms target with
  | Some existingAlarms =>
      foldl (fun t a => if p a then removeAlarm a t else t) target existingAlarms
  | None => target
  end.

(** [if let rules = target.recurrenceRules { for rule in rules { target.removeRecurrenceRule(rule) } }] *)
Definition removeAllRecurrenceRules (target : EKReminder.t) : EKReminder.t :=
  match EKReminder.recurrenceRules target with
  | Some existingRules =>
      foldl (fun t rule => removeRecurrenceRule rule t) target existingRules
  | None => target
  end.

Definition hasAbsoluteDate (a : EKAlarm.t) : bool :=
  bool_decide (EKAlarm.absoluteDate a <> None).

Definition hasStructuredLocation (a : EKAlarm.t) : bool :=
  bool_decide (EKAlarm.structuredLocation a <> None).

(** ** EventKitManager *)

Section Manager.
Context `{Platform}.

Definition requestAccess : Cmd unit :=
  call CallRequestAccess;;
  st ← getStore;
  if EKEventStore.accessGranted st then mret tt else throw accessDenied.

Definition getAllLists : Cmd (list EKCalendar.t) :=
  call CallCalendars;;
  st ← getStore;
  mret (EKEventStore.calendars st).

Definition findList (name : string) : Cmd (nat * EKCalendar.t) :=
  call CallCalendars;;
  st ← getStore;
  match list_find (fun c => EKCalendar.title c = name) (EKEventStore.calendars st) with
  | Some calendar => mret calendar
  | None => throw (listNotFound name)
  end.

Definition fetchReminders (calendar : nat * EKCalendar.t) (includeCompleted : bool)
    : Cmd (list (Ref * EKReminder.t)) :=
  call (CallFetchReminders calendar.1);;
  st ← getStore;
  match (EKEventStore.calendars st !! calendar.1) ≫= EKCalendar.reminders with
  | None => throw fetchFailed
  | Some reminders =>
      let reminders := imap (fun i r => ((calendar.1, i), r)) reminders in
      let filtered :=
        if includeCompleted then reminders
        else filter (fun p => EKReminder.isCompleted p.2 = false) reminders in
      mret filtered
  end.

Definition findReminder (listName reminderName : string)
    : Cmd (Ref * EKReminder.t) :=
  calendar ← findList listName;
  reminders ← fetchReminders calendar true;
  match list_find (fun p => EKReminder.title p.2 = Some reminderName) reminders with
  | Some (_, reminder) => mret reminder
  | None => throw (reminderNotFound reminderName)
  end.

(** The store after the in-memory value [r] of the reminder fetched at [ref]
    has been committed. *)
Definition writeReminder (ref : Ref) (r : EKReminder.t) (st : EKEventStore.t)
    : EKEventStore.t :=
  EKEventStore.make (EKEventStore.accessGranted st)
    (alter (fun c => EKCalendar.make (EKCalendar.title c)
                       (insert ref.2 r <$> EKCalendar.reminders c))
           ref.1 (EKEventStore.calendars st)).

Definition save (reminder : Ref * EKReminder.t) : Cmd unit :=
  call (CallSave reminder.1 reminder.2);;
  st ← getStore;
  match commitError st reminder.2 with
  | Some msg => throw (saveFailed msg)
  | None => putStore (writeReminder reminder.1 reminder.2 st)
  end.

Definition parseDate (dateString : string) : Cmd Date :=
  match dateFromString dateString with
  | Some date => mret date
  | None => throw (invalidDate dateString)
  end.

Definition dateToComponents (date : Date) : DateComponents :=
  dateComponentsFrom date.

(** *** EKReminder to ReminderOutput *)

Definition frequencyString (f : EKRecurrenceFrequency) : string :=
  match f with
  | Daily => "daily"
  | Weekly => "weekly"
  | Monthly => "monthly"
  | Yearly => "yearly"
  end.

Definition ruleToInfo (rule : EKRecurrenceRule.t) : RecurrenceInfo :=
  let freq := frequencyString (EKRecurrenceRule.frequency rule) in
  let endDate : option string :=
    match EKRecurrenceRule.recurrenceEnd rule with
    | Some e => stringFromDate <$> EKRecurrenceEnd.endDate e
    | None => None
    end in
  let endCount : option Z :=
    match EKRecurrenceRule.recurrenceEnd rule with
    | Some e =>
        if 0 <? EKRecurrenceEnd.occurrenceCount e
        then Some (EKRecurrenceEnd.occurrenceCount e) else None
    | None => None
    end in
  let daysOfWeek : option (list Z) :=
    match EKRecurrenceRule.daysOfTheWeek rule with
    | Some days => Some (map rawValue days)
    | None => None
    end in
  mkRecurrenceInfo freq (EKRecurrenceRule.interval rule) endDate endCount daysOfWeek.

Definition proximityString (p : EKAlarmProximity) : string :=
  match p with
  | ProximityEnter => "enter"
  | ProximityLeave => "leave"
  | ProximityNone => "none"
  end.

(** The loop of [toOutput] over the alarms: it stops at the first alarm that
    has a structured location with a geo location, and yields the pair
    (locationInfo, hasLocation). *)
Fixpoint locationOfAlarms (alarms : list EKAlarm.t) : option LocationInfo * bool :=
  match alarms with
  | [] => (None, false)
  | alarm :: rest =>
      match EKAlarm.structuredLocation alarm with
      | Some loc =>
          match EKStructuredLocation.geoLocation loc with
          | Some geo =>
              (Some (mkLocationInfo (EKStructuredLocation.title loc)
                       (CLLocation.latitude geo) (CLLocation.longitude geo)
                       (EKStructuredLocation.radius loc)
                       (proximityString (EKAlarm.proximity alarm))),
               true)
          | None => locationOfAlarms rest
          end
      | None => locationOfAlarms rest
      end
  end.

Definition toOutput (reminder : EKReminder.t) : ReminderOutput :=
  let dueDateStr : option string :=
    match EKReminder.dueDateComponents reminder with
    | Some components => stringFromDate <$> dateFromComponents components
    | None => None
    end in
  let hasRecurrence :=
    EKReminder.hasRecurrenceRules reminder
    && negb (match EKReminder.recurrenceRules reminder with
             | Some rules => bool_decide (rules = [])
             | None => true
             end) in
  let recurrenceInfo :=
    if hasRecurrence
    then match EKReminder.recurrenceRules reminder with
         | Some rules => ruleToInfo <$> head rules
         | None => None
         end
    else None in
  let '(locationInfo, hasLocation) :=
    match EKReminder.alarms reminder with
    | Some alarms => locationOfAlarms alarms
    | None => (None, false)
    end in
  mkReminderOutput
    (orElse (EKReminder.title reminder) EmptyString)
    (EKReminder.notes reminder)
    (EKReminder.isCompleted reminder)
    dueDateStr
    (EKReminder.priority reminder)
    false
    hasRecurrence
    recurrenceInfo
    hasLocation
    locationInfo.

End Manager.

(** ** The sub-commands of reminders-helper *)

Section Commands.
Context `{Platform}.

Definition outputSuccess (ok : bool) (msg : string) : Cmd unit :=
  outputJSON (OutSuccess (mkSuccessOutput ok msg)).

(** *** list-lists, get-reminders *)

Definition ListLists_run : Cmd unit :=
  requestAccess;;
  lists ← getAllLists;
  outputJSON (OutLists (map EKCalendar.title lists)).

Definition GetReminders_run (listName : string) (includeCompleted : bool) : Cmd unit :=
  requestAccess;;
  calendar ← findList listName;
  reminders ← fetchReminders calendar includeCompleted;
  outputJSON (OutReminders (map (fun p => toOutput p.2) reminders)).

(** *** complete, update *)

Definition CompleteReminder_run (listName reminder : string) : Cmd unit :=
  requestAccess;;
  target ← findReminder listName reminder;
  let r := EKReminder.make (EKReminder.title target.2) (EKReminder.notes target.2)
             true (EKReminder.dueDateComponents target.2)
             (EKReminder.priority target.2) (EKReminder.alarms target.2)
             (EKReminder.recurrenceRules target.2) in
  save (target.1, r);;
  outputSuccess true ("リマインダー「" +:+ reminder +:+ "」を完了にしました").

Definition notNil {A : Type} (o : option A) : bool :=
  match o with Some _ => true | None => false end.

Definition UpdateReminder_run (listName reminder : string)
    (newName newBody appendBody newDueDate : option string) : Cmd unit :=
  if notNil newName || notNil newBody || notNil appendBody || notNil newDueDate
  then
    requestAccess;;
    target ← findReminder listName reminder;
    let r := target.2 in
    let r := match newName with
             | Some name => EKReminder.set_title (Some name) r
             | None => r
             end in
    let r := match newBody with
             | Some body => EKReminder.set_notes (Some body) r
             | None => r
             end in
    let r := match appendBody with
             | Some append =>
                 EKReminder.set_notes
                   (Some (orElse (EKReminder.notes r) EmptyString +:+ LF +:+ append)) r
             | None => r
             end in
    r ← match newDueDate with
        | Some dueDateStr =>
            date ← parseDate dueDateStr;
            mret (EKReminder.set_dueDateComponents (Some (dateToComponents date)) r)
        | None => mret r
        end;
    save (target.1, r);;
    outputSuccess true ("リマインダー「" +:+ reminder +:+ "」を更新しました")
  else
    outputSuccess false "更新する項目が指定されていません".

(** *** set-priority, set-remind-date *)

Definition priorityLabel (priority : Z) : string :=
  if priority =? 0 then "なし"
  else if priority <=? 3 then "高"
  else if priority <=? 6 then "中" else "低".

Definition SetPriority_run (listName reminder : string) (priority : Z) : Cmd unit :=
  requestAccess;;
  target ← findReminder listName reminder;
  save (target.1, EKReminder.set_priority priority target.2);;
  let label := priorityLabel priority in
  outputSuccess true ("リマインダー「" +:+ reminder +:+ "」の優先度を「" +:+ label
                +:+ "」に設定しました").

Definition SetRemindDate_run (listName reminder date : string) : Cmd unit :=
  requestAccess;;
  target ← findReminder listName reminder;
  remindDate ← parseDate date;
  let alarm := EKAlarm.withAbsoluteDate remindDate in
  let r := removeAlarmsWhere hasAbsoluteDate target.2 in
  let r := addAlarm alarm r in
  save (target.1, r);;
  outputSuccess true ("リマインダー「" +:+ reminder +:+ "」の通知日時を「" +:+ date
                +:+ "」に設定しました").

(** *** get-recurrence, set-recurrence, clear-recurrence *)

Definition GetRecurrence_run (listName reminder : string) : Cmd unit :=
  requestAccess;;
  target ← findReminder listName reminder;
  let output := toOutput target.2 in
  match ro_recurrence output with
  | Some recurrence => outputJSON (OutRecurrence recurrence)
  | None => outputSuccess true "繰り返しルールは設定されていません"
  end.

(** The [switch frequency.lowercased()] of set-recurrence. *)
Definition parseFrequency (frequency : string) : option EKRecurrenceFrequency :=
  let f := lowercased frequency in
  if String.eqb f "daily" then Some Daily
  else if String.eqb f "weekly" then Some Weekly
  else if String.eqb f "monthly" then Some Monthly
  else if String.eqb f "yearly" then Some Yearly
  else None.

Definition freqLabel (frequency : string) (interval : Z) : string :=
  let f := lowercased frequency in
  if String.eqb f "daily"
  then (if interval =? 1 then "毎日" else pretty interval +:+ "日ごと")
  else if String.eqb f "weekly"
  then (if interval =? 1 then "毎週" else pretty interval +:+ "週ごと")
  else if String.eqb f "monthly"
  then (if interval =? 1 then "毎月" else pretty interval +:+ "ヶ月ごと")
  else if String.eqb f "yearly"
  then (if interval =? 1 then "毎年" else pretty interval +:+ "年ごと")
  else frequency.

(** The end condition of set-recurrence: the count when given, otherwise the
    parsed end date when given. *)
Definition recurrenceEndOf (endCount : option Z) (endDate : option string)
    : Cmd (option EKRecurrenceEnd.t) :=
  match endCount with
  | Some count => mret (Some (EKRecurrenceEnd.withOccurrenceCount count))
  | None =>
      match endDate with
      | Some dateStr =>
          date ← parseDate dateStr;
          mret (Some (EKRecurrenceEnd.withEnd date))
      | None => mret None
      end
  end.

Definition SetRecurrence_run (listName reminder frequency : string) (interval : Z)
    (endCount : option Z) (endDate : option string) : Cmd unit :=
  requestAccess;;
  target ← findReminder listName reminder;
  match parseFrequency frequency with
  | None =>
      outputSuccess false ("無効な頻度: " +:+ frequency +:+ " (daily/weekly/monthly/yearly)")
  | Some freq =>
      e ← recurrenceEndOf endCount endDate;
      let r := removeAllRecurrenceRules target.2 in
      let rule := EKRecurrenceRule.recurrenceWith freq interval e in
      let r := addRecurrenceRule rule r in
      save (target.1, r);;
      outputSuccess true ("リマインダー「" +:+ reminder +:+ "」に繰り返し「"
                    +:+ freqLabel frequency interval +:+ "」を設定しました")
  end.

Definition ClearRecurrence_run (listName reminder : string) : Cmd unit :=
  requestAccess;;
  target ← findReminder listName reminder;
  save (target.1, removeAllRecurrenceRules target.2);;
  outputSuccess true ("リマインダー「" +:+ reminder +:+ "」の繰り返しルールを解除しました").

(** *** get-location, set-location, clear-location *)

Definition GetLocation_run (listName reminder : string) : Cmd unit :=
  requestAccess;;
  target ← findReminder listName reminder;
  let output := toOutput target.2 in
  match ro_location output with
  | Some location => outputJSON (OutLocation location)
  | None => outputSuccess true "場所ベースの通知は設定されていません"
  end.

Definition parseProximity (proximity : string) : option EKAlarmProximity :=
  let p := lowercased proximity in
  if String.eqb p "enter" then Some ProximityEnter
  else if String.eqb p "leave" then Some ProximityLeave
  else None.

Definition SetLocation_run (listName reminder title : string)
    (latitude longitude radius : Double) (proximity : string) : Cmd unit :=
  requestAccess;;
  target ← findReminder listName reminder;
  match parseProximity proximity with
  | None =>
      outputSuccess false ("無効なトリガー条件: " +:+ proximity +:+ " (enter/leave)")
  | Some ekProximity =>
      let r := removeAlarmsWhere hasStructuredLocation target.2 in
      let location :=
        EKStructuredLocation.make (Some title)
          (Some (CLLocation.make latitude longitude)) radius in
      let alarm := EKAlarm.withLocation location ekProximity in
      let r := addAlarm alarm r in
      save (target.1, r);;
      let triggerLabel := if String.eqb proximity "enter" then "到着時" else "出発時" in
      outputSuccess true ("リマインダー「" +:+ reminder +:+ "」に場所通知を設定しました（"
                    +:+ title +:+ " - " +:+ triggerLabel +:+ "）")
  end.

Definition ClearLocation_run (listName reminder : string) : Cmd unit :=
  requestAccess;;
  target ← findReminder listName reminder;
  save (target.1, removeAlarmsWhere hasStructuredLocation target.2);;
  outputSuccess true ("リマインダー「" +:+ reminder +:+ "」の場所ベース通知を解除しました").

End Commands.

(** ** The AppleScript tool layer (src/index.ts): [get_reminders] *)

Module ToolServer.

(** What [Bun.spawn(["osascript", "-e", script])] yields once the process
    has exited. *)
Record Process := mkProcess {
  proc_stdout : string;
  proc_stderr : string;
  exitCode : Z
}.

Inductive Promise (A : Type) :=
| Rejected (error : string)
| Resolved (a : A).
Arguments Rejected {A} error.
Arguments Resolved {A} a.

(** The [text] of the single content item a tool returns. *)
Inductive ToolText :=
| PlainText (text : string)
| JSONstringify (value : list string).

(** JavaScript truthiness of a string. *)
Definition truthy (s : string) : bool :=
  match s with EmptyString => false | _ => true end.

(** The white space and line terminators that [trim()] strips, as UTF-8
    byte sequences: U+0009 to U+000D and U+0020 (one byte); U+00A0 (two
    bytes); U+1680, U+2000 to U+200A, U+2028, U+2029, U+202F, U+205F, U+3000
    and U+FEFF (three bytes). *)
Definition isWhiteSpace (c : ascii) : bool :=
  let n := nat_of_ascii c in
  ((n =? 32) || ((9 <=? n) && (n <=? 13)))%nat.

Definition isWhiteSpace2 (c1 c2 : ascii) : bool :=
  ((nat_of_ascii c1 =? 194) && (nat_of_ascii c2 =? 160))%nat.

Definition isWhiteSpace3 (c1 c2 c3 : ascii) : bool :=
  let b1 := nat_of_ascii c1 in
  let b2 := nat_of_ascii c2 in
  let b3 := nat_of_ascii c3 in
  (((b1 =? 225) && (b2 =? 154) && (b3 =? 128))
   || ((b1 =? 226) && (b2 =? 128)
       && (((128 <=? b3) && (b3 <=? 138)) || (b3 =? 168) || (b3 =? 169) || (b3 =? 175)))
   || ((b1 =? 226) && (b2 =? 129) && (b3 =? 159))
   || ((b1 =? 227) && (b2 =? 128) && (b3 =? 128))
   || ((b1 =? 239) && (b2 =? 187) && (b3 =? 191)))%nat.

Fixpoint trimStart (s : string) : string :=
  match s with
  | EmptyString => EmptyString
  | String c1 r1 =>
      if isWhiteSpace c1 then trimStart r1
      else match r1 with
           | EmptyString => s
           | String c2 r2 =>
               if isWhiteSpace2 c1 c2 then trimStart r2
               else match r2 with
                    | EmptyString => s
                    | String c3 r3 =>
                        if isWhiteSpace3 c1 c2 c3 then trimStart r3 else s
                    end
           end
  end.

(** A string is dropped from the end when it is white space throughout. *)
Fixpoint trimEnd (s : string) : string :=
  match s with
  | EmptyString => EmptyString
  | String c rest =>
      if truthy (trimStart s) then String c (trimEnd rest) else EmptyString
  end.

Definition trim (s : string) : string := trimEnd (trimStart s).

(** [s.split(", ")], with [cur] the piece being read. *)
Fixpoint splitFrom (cur s : string) : list string :=
  match s with
  | String "," (String " " rest) => cur :: splitFrom EmptyString rest
  | String c rest => splitFrom (cur +:+ String c EmptyString) rest
  | EmptyString => [cur]
  end.

Definition splitCommaSpace (s : string) : list string := splitFrom EmptyString s.

Definition Q : string := String (ascii_of_nat 34) EmptyString.

Section Tools.
Variable osascript : string -> Process.

Definition runAppleScript (script : string) : Promise string :=
  let proc := osascript script in
  if negb (exitCode proc =? 0)
  then Rejected ("AppleScript error: " +:+ proc_stderr proc)
  else Resolved (trim (proc_stdout proc)).

Definition whoseFilter (includeCompleted : bool) : string :=
  if includeCompleted then EmptyString else " whose completed is false".

Definition detailedScript (listName : string) (includeCompleted : bool) : string :=
  LF +:+ "      tell application " +:+ Q +:+ "Reminders" +:+ Q +:+ LF
  +:+ "        set myList to list " +:+ Q +:+ listName +:+ Q +:+ LF
  +:+ "        set reminderData to {}" +:+ LF
  +:+ "        repeat with r in (every reminder of myList"
  +:+ whoseFilter includeCompleted +:+ ")" +:+ LF
  +:+ "          set end of reminderData to {|name|:name of r, |body|:body of r, |completed|:completed of r, |dueDate|:due date of r}"
  +:+ LF
  +:+ "        end repeat" +:+ LF
  +:+ "        return reminderData" +:+ LF
  +:+ "      end tell" +:+ LF
  +:+ "    ".

Definition simpleScript (listName : string) (includeCompleted : bool) : string :=
  LF +:+ "        tell application " +:+ Q +:+ "Reminders" +:+ Q +:+ LF
  +:+ "          set myList to list " +:+ Q +:+ listName +:+ Q +:+ LF
  +:+ "          get name of every reminder of myList"
  +:+ whoseFilter includeCompleted +:+ LF
  +:+ "        end tell" +:+ LF
  +:+ "      ".

Definition get_reminders (listName : string) (includeCompleted : bool)
    : Promise ToolText :=
  match runAppleScript (detailedScript listName includeCompleted) with
  | Resolved result =>
      Resolved (PlainText (if truthy result then result
                           else "リマインダーがありません"))
  | Rejected _ =>
      match runAppleScript (simpleScript listName includeCompleted) with
      | Resolved result =>
          let reminders := if truthy result then splitCommaSpace result else [] in
          Resolved (JSONstringify reminders)
      | Rejected error => Rejected error
      end
  end.

End Tools.
End ToolServer.

(** ** The EventKit tool layer (the server that spawns reminders-helper):
    [get_reminders]

    [JSON.parse] and the reading of the parsed value are JavaScript's: the
    value type, the parse (with the [{text: ...}] it yields when the parse
    throws) and the text made of [result.reminders] are parameters. *)

Module HelperServer.
Import ToolServer.

Section Tools.
Variable helper : list string -> Process.
Variable JSONValue : Type.
(** [JSON.parse(s)], or [{text: s}] when it throws *)
Variable parseOrText : string -> JSONValue.
(** [JSON.stringify(result.reminders, null, 2)] when [result.reminders?.length]
    is truthy *)
Variable remindersText : JSONValue -> option string.

Definition runHelper (args : list string) : Promise JSONValue :=
  let proc := helper args in
  if negb (exitCode proc =? 0)
  then
    let errorMsg :=
      if truthy (trim (proc_stderr proc)) then trim (proc_stderr proc)
      else trim (proc_stdout proc) in
    Rejected ("reminders-helper エラー: " +:+ errorMsg)
  else Resolved (parseOrText (trim (proc_stdout proc))).

Definition get_remindersArgs (listName : string) (includeCompleted : bool)
    : list string :=
  ["get-reminders"; "--list"; listName]
  ++ (if includeCompleted then ["--include-completed"] else []).

Definition get_reminders (listName : string) (includeCompleted : bool)
    : Promise ToolText :=
  match runHelper (get_remindersArgs listName includeCompleted) with
  | Resolved result =>
      Resolved (PlainText (default "リマインダーがありません" (remindersText result)))
  | Rejected error => Rejected error
  end.

End Tools.
End HelperServer.

(** ** A concrete platform and store, for running the model *)

Module Sample.

Definition digit (c : ascii) : option Z :=
  let n := nat_of_ascii c in
  if ((48 <=? n) && (n <=? 57))%nat then Some (Z.of_nat n - 48) else None.

Fixpoint digits (acc : Z) (s : list ascii) : option Z :=
  match s with
  | [] => Some acc
  | c :: rest =>
      match digit c with
      | Some d => digits (10 * acc + d) rest
      | None => None
      end
  end.

(** Reads "yyyy-MM-dd HH:mm" as the number yyyyMMddHHmm. *)
Definition parseStamp (s : string) : option Date :=
  match list_ascii_of_string s with
  | [y1; y2; y3; y4; "-"%char; m1; m2; "-"%char; d1; d2; " "%char;
     h1; h2; ":"%char; n1; n2] =>
      digits 0 [y1; y2; y3; y4; m1; m2; d1; d2; h1; h2; n1; n2]
  | _ => None
  end.

(** A platform for the sample runs, whose strings are ASCII: time stamps are
    read as numbers and [lowercased] maps the ASCII letters. *)
Definition platform : Platform := {|
  dateFromString := parseStamp;
  stringFromDate := fun d => pretty d;
  dateComponentsFrom := fun d =>
    mkDateComponents (d / 100000000) (d / 1000000 mod 100) (d / 10000 mod 100)
                     (d / 100 mod 100) (d mod 100);
  dateFromComponents := fun c =>
    Some ((((year c * 100 + month c) * 100 + day c) * 100 + hour c) * 100 + minute c);
  lowercased := lowercasedASCII;
  commitError := fun _ _ => None
|}.

Definition office : EKStructuredLocation.t :=
  EKStructuredLocation.make (Some "Office")
    (Some (CLLocation.make (S754_finite false 35 0) (S754_finite false 139 0)))
    (S754_finite false 50 0).

Definition shipReport : EKReminder.t :=
  EKReminder.make (Some "Ship report") None false None 0
    (Some [EKAlarm.withAbsoluteDate 202403150900;
           EKAlarm.withLocation office ProximityLeave;
           EKAlarm.withAbsoluteDate 202403160900])
    (Some [EKRecurrenceRule.recurrenceWith Daily 1 None;
           EKRecurrenceRule.recurrenceWith Monthly 3 None]).

Definition archived : EKReminder.t :=
  EKReminder.make (Some "Archive mail") (Some "done") true None 5 None None.

Definition work : EKCalendar.t :=
  EKCalendar.make "Work" (Some [archived; shipReport; shipReport]).

Definition home : EKCalendar.t := EKCalendar.make "Home" (Some []).

Definition store : EKEventStore.t := EKEventStore.make true [home; work].

(** An osascript that fails on the detailed listing of "Backlog" and answers
    the plain listing of names. *)
Definition backlogScripts (script : string) : ToolServer.Process :=
  if String.eqb script (ToolServer.detailedScript "Backlog" false)
  then ToolServer.mkProcess EmptyString
         "execution error: Can't get due date of reminder. (-1728)" 1
  else if String.eqb script (ToolServer.simpleScript "Backlog" false)
  then ToolServer.mkProcess ("Buy milk, Ship report" +:+ LF) EmptyString 0
  else ToolServer.mkProcess EmptyString "execution error" 1.

End Sample.

(** Runs of the helper on the sample store. *)
Module Scenario.

Definition remindOnce : Result unit * World :=
  launch (@SetRemindDate_run Sample.platform "Work" "Ship report" "2024-04-01 10:00")
    Sample.store.

Definition remindTwice : Result unit * World :=
  launch (@SetRemindDate_run Sample.platform "Work" "Ship report" "2024-05-01 08:30")
    (store remindOnce.2).

Definition recurOnce : Result unit * World :=
  launch (@SetRecurrence_run Sample.platform "Work" "Ship report" "daily" 1 None None)
    Sample.store.

Definition recurTwice : Result unit * World :=
  launch (@SetRecurrence_run Sample.platform "Work" "Ship report" "Weekly" 2 (Some 5)
            (Some "not a date"))
    (store recurOnce.2).

Definition cleared : Result unit * World :=
  launch (@ClearLocation_run Sample.platform "Work" "Ship report") Sample.store.

Definition recurHourly : Result unit * World :=
  launch (@SetRecurrence_run Sample.platform "Work" "Ship report" "hourly" 1 None None)
    Sample.store.

Definition updateBadDate : Result unit * World :=
  launch (@UpdateReminder_run Sample.platform "Work" "Ship report" (Some "Ship it")
            (Some "body") (Some "more") (Some "tomorrow"))
    Sample.store.

End Scenario.

(** ** Notions used to state the properties *)

(** The outcome of resolving [(listName, reminderName)] against a store, and
    the gateway calls the resolution makes. *)
Definition lookupReminder (st : EKEventStore.t) (listName reminderName : string)
    : Result (Ref * EKReminder.t) :=
  match list_find (fun c => EKCalendar.title c = listName) (EKEventStore.calendars st) with
  | None => Throw (listNotFound listName)
  | Some (ci, c) =>
      match EKCalendar.reminders c with
      | None => Throw fetchFailed
      | Some rs =>
          match list_find (fun r => EKReminder.title r = Some reminderName) rs with
          | None => Throw (reminderNotFound reminderName)
          | Some (ri, r) => Return ((ci, ri), r)
          end
      end
  end.

Definition lookupCalls (st : EKEventStore.t) (listName : string) : list StoreCall :=
  match list_find (fun c => EKCalendar.title c = listName) (EKEventStore.calendars st) with
  | None => [CallCalendars]
  | Some (ci, _) => [CallCalendars; CallFetchReminders ci]
  end.

Definition afterCalls (cs : list StoreCall) (w : World) : World :=
  mkWorld (store w) (calls w ++ cs) (stdout w).


(** A run that returned after printing one [{success: true, ...}] envelope. *)
Definition succeeded (o : Result unit * World) : Prop :=
  o.1 = Return tt /\ exists msg, stdout o.2 = [OutSuccess (mkSuccessOutput true msg)].

(** The reminder [(listName, reminderName)] resolves to in the store [st]. *)
Definition resolves (st : EKEventStore.t) (listName reminderName : string)
    (ref : Ref) (r : EKReminder.t) : Prop :=
  (findReminder listName reminderName (mkWorld st [] [])).1 = Return (ref, r).

(** The two alarm variants of the data model, read off an [EKAlarm]: a
    location alarm carries a structured location, a time alarm carries an
    absolute date and no structured location. *)
Definition isLocationAlarm (a : EKAlarm.t) : bool := hasStructuredLocation a.
Definition isTimeAlarm (a : EKAlarm.t) : bool :=
  hasAbsoluteDate a && negb (hasStructuredLocation a).

(** The end condition a set-recurrence call asks for. *)
Definition endCondition `{Platform} (endCount : option Z) (endDate : option string)
    (e : option EKRecurrenceEnd.t) : Prop :=
  match endCount, endDate with
  | Some count, _ => e = Some (EKRecurrenceEnd.withOccurrenceCount count)
  | None, Some dateStr =>
      exists d, dateFromString dateStr = Some d /\ e = Some (EKRecurrenceEnd.withEnd d)
  | None, None => e = None
  end.

(** The rule a set-recurrence call with an end count builds. *)
Definition countedRule (freq : EKRecurrenceFrequency) (interval count : Z)
    : EKRecurrenceRule.t :=
  EKRecurrenceRule.recurrenceWith freq interval
    (Some (EKRecurrenceEnd.withOccurrenceCount count)).

(** The label classes of the priority convention and the label the helper
    prints for each. *)
Inductive LabelClass := LabelNone | LabelHigh | LabelMedium | LabelLow.

Definition labelClass (label : string) : option LabelClass :=
  if String.eqb label "なし" then Some LabelNone
  else if String.eqb label "高" then Some LabelHigh
  else if String.eqb label "中" then Some LabelMedium
  else if String.eqb label "低" then Some LabelLow
  else None.

(** ** The remaining sub-commands and tools *)

(** The reminder stored at a position. *)
Definition reminderAt (st : EKEventStore.t) (ref : Ref) : option EKReminder.t :=
  match EKEventStore.calendars st !! ref.1 with
  | Some c =>
      match EKCalendar.reminders c with
      | Some rs => rs !! ref.2
      | None => None
      end
  | None => None
  end.

Section Creation.
Context `{Platform}.

(** [EKReminder(eventStore:)]: a reminder on which nothing is set yet. *)
Definition newReminder : EKReminder.t :=
  EKReminder.make None None false None 0 None None.

(** The store after a reminder created in calendar [ci] has been committed:
    it comes last in that calendar. *)
Definition appendReminder (ci : nat) (r : EKReminder.t) (st : EKEventStore.t)
    : EKEventStore.t :=
  EKEventStore.make (EKEventStore.accessGranted st)
    (alter (fun c => EKCalendar.make (EKCalendar.title c)
                       ((fun rs => rs ++ [r]) <$> EKCalendar.reminders c))
           ci (EKEventStore.calendars st)).

(** The position a reminder created in calendar [ci] is committed at. *)
Definition nextRef (ci : nat) (st : EKEventStore.t) : Ref :=
  (ci, match EKEventStore.calendars st !! ci with
       | Some c => length (default [] (EKCalendar.reminders c))
       | None => 0%nat
       end).

(** [save] of a reminder that is not in the store yet. *)
Definition saveNew (ci : nat) (reminder : EKReminder.t) : Cmd unit :=
  st ← getStore;
  call (CallSave (nextRef ci st) reminder);;
  match commitError st reminder with
  | Some msg => throw (saveFailed msg)
  | None => putStore (appendReminder ci reminder st)
  end.

Definition AddReminder_run (listName title : string) (body dueDate : option string)
    : Cmd unit :=
  requestAccess;;
  calendar ← findList listName;
  let reminder := EKReminder.set_title (Some title) newReminder in
  let reminder := EKReminder.set_notes body reminder in
  reminder ← match dueDate with
             | Some dueDateStr =>
                 date ← parseDate dueDateStr;
                 mret (EKReminder.set_dueDateComponents
                         (Some (dateToComponents date)) reminder)
             | None => mret reminder
             end;
  saveNew calendar.1 reminder;;
  outputSuccess true ("リマインダー「" +:+ title +:+ "」を「" +:+ listName
                      +:+ "」に追加しました").

(** The sub-commands of reminders-helper modelled here, with their parsed
    options (delete is not among them). *)
Inductive SubCommand :=
| ListLists
| GetReminders (list_ : string) (includeCompleted : bool)
| AddReminder (list_ title : string) (body dueDate : option string)
| CompleteReminder (list_ reminder : string)
| UpdateReminder (list_ reminder : string)
    (newName newBody appendBody newDueDate : option string)
| SetPriority (list_ reminder : string) (priority : Z)
| SetRemindDate (list_ reminder date : string)
| GetRecurrence (list_ reminder : string)
| SetRecurrence (list_ reminder frequency : string) (interval : Z)
    (endCount : option Z) (endDate : option string)
| ClearRecurrence (list_ reminder : string)
| GetLocation (list_ reminder : string)
| SetLocation (list_ reminder title : string) (latitude longitude radius : Double)
    (proximity : string)
| ClearLocation (list_ reminder : string).

Definition run (c : SubCommand) : Cmd unit :=
  match c with
  | ListLists => ListLists_run
  | GetReminders l ic => GetReminders_run l ic
  | AddReminder l t b d => AddReminder_run l t b d
  | CompleteReminder l r => CompleteReminder_run l r
  | UpdateReminder l r nn nb ab nd => UpdateReminder_run l r nn nb ab nd
  | SetPriority l r p => SetPriority_run l r p
  | SetRemindDate l r d => SetRemindDate_run l r d
  | GetRecurrence l r => GetRecurrence_run l r
  | SetRecurrence l r f i ec ed => SetRecurrence_run l r f i ec ed
  | ClearRecurrence l r => ClearRecurrence_run l r
  | GetLocation l r => GetLocation_run l r
  | SetLocation l r t la lo ra p => SetLocation_run l r t la lo ra p
  | ClearLocation l r => ClearLocation_run l r
  end.

End Creation.

(** The sub-commands that only read the store. *)
Definition readOnly (c : SubCommand) : bool :=
  match c with
  | ListLists | GetReminders _ _ | GetRecurrence _ _ | GetLocation _ _ => true
  | _ => false
  end.

(** The sub-commands that start by requesting access: all but an update
    without any field. *)
Definition requestsAccess (c : SubCommand) : bool :=
  match c with
  | UpdateReminder _ _ nn nb ab nd =>
      notNil nn || notNil nb || notNil ab || notNil nd
  | _ => true
  end.

(** The AppleScript tools [list_reminder_lists] and [update_reminder] of
    src/index.ts. *)
Module AppleScriptTools.

(** [l.join(sep)] *)
Fixpoint join (sep : string) (l : list string) : string :=
  match l with
  | [] => EmptyString
  | [x] => x
  | x :: rest => x +:+ sep +:+ join sep rest
  end.

(** [s.includes(", ")] *)
Fixpoint includesCommaSpace (s : string) : bool :=
  match s with
  | EmptyString => false
  | String a rest =>
      match rest with
      | String b _ =>
          (Ascii.eqb a ","%char && Ascii.eqb b " "%char) || includesCommaSpace rest
      | EmptyString => false
      end
  end.

(** [if (field) { updates.push(command(field)) }] on an optional string. *)
Definition pushIf (field : option string) (command : string -> string)
    (updates : list string) : list string :=
  match field with
  | Some v => if ToolServer.truthy v then updates ++ [command v] else updates
  | None => updates
  end.

Definition updateCommands (newName newBody appendBody newDueDate : option string)
    : list string :=
  let updates := [] in
  let updates :=
    pushIf newName
      (fun v => "set name of r to " +:+ ToolServer.Q +:+ v +:+ ToolServer.Q) updates in
  let updates :=
    pushIf newBody
      (fun v => "set body of r to " +:+ ToolServer.Q +:+ v +:+ ToolServer.Q) updates in
  let updates :=
    pushIf appendBody
      (fun v => "set body of r to (body of r) & " +:+ ToolServer.Q +:+ LF +:+ v
                +:+ ToolServer.Q) updates in
  pushIf newDueDate
    (fun v => "set due date of r to date " +:+ ToolServer.Q +:+ v +:+ ToolServer.Q)
    updates.

Definition updateScript (listName reminderName : string) (updates : list string)
    : string :=
  LF +:+ "      tell application " +:+ ToolServer.Q +:+ "Reminders" +:+ ToolServer.Q
  +:+ LF
  +:+ "        tell list " +:+ ToolServer.Q +:+ listName +:+ ToolServer.Q +:+ LF
  +:+ "          set r to (first reminder whose name is " +:+ ToolServer.Q
  +:+ reminderName +:+ ToolServer.Q +:+ ")" +:+ LF
  +:+ "          " +:+ join (LF +:+ "          ") updates +:+ LF
  +:+ "        end tell" +:+ LF
  +:+ "      end tell" +:+ LF
  +:+ "    ".

Section Tools.
Variable osascript : string -> ToolServer.Process.

Definition list_reminder_lists : ToolServer.Promise ToolServer.ToolText :=
  let script :=
    "tell application " +:+ ToolServer.Q +:+ "Reminders" +:+ ToolServer.Q
    +:+ " to get name of every list" in
  match ToolServer.runAppleScript osascript script with
  | ToolServer.Resolved result =>
      let lists := ToolServer.splitCommaSpace result in
      ToolServer.Resolved (ToolServer.JSONstringify lists)
  | ToolServer.Rejected error => ToolServer.Rejected error
  end.

Definition update_reminder (listName reminderName : string)
    (newName newBody appendBody newDueDate : option string)
    : ToolServer.Promise ToolServer.ToolText :=
  let updates := updateCommands newName newBody appendBody newDueDate in
  if (length updates =? 0)%nat
  then ToolServer.Resolved (ToolServer.PlainText "更新する項目が指定されていません")
  else
    match ToolServer.runAppleScript osascript
            (updateScript listName reminderName updates) with
    | ToolServer.Resolved _ =>
        ToolServer.Resolved
          (ToolServer.PlainText ("リマインダー「" +:+ reminderName +:+ "」を更新しました"))
    | ToolServer.Rejected error => ToolServer.Rejected error
    end.

End Tools.
End AppleScriptTools.

(** The save calls among the gateway calls of a run. *)
Definition isSave (c : StoreCall) : bool :=
  match c with CallSave _ _ => true | _ => false end.

(** An alarm whose structured location has a geo location: the alarms
    [toOutput] can report a location from. *)
Definition hasGeoLocation (a : EKAlarm.t) : bool :=
  match EKAlarm.structuredLocation a with
  | Some loc => notNil (EKStructuredLocation.geoLocation loc)
  | None => false
  end.

(** The values [JSONEncoder] encodes: with its default strategy it throws on
    a [Double] that is infinite or not a number, so a [LocationInfo] is
    printed only when its three numbers are finite.  The other fields of the
    output models are strings, integers and booleans. *)
Definition isFiniteDouble (d : Double) : bool :=
  match d with
  | S754_zero _ | S754_finite _ _ _ => true
  | S754_infinity _ | S754_nan => false
  end.

Definition encodableLocation (info : LocationInfo) : bool :=
  isFiniteDouble (li_latitude info) && isFiniteDouble (li_longitude info)
  && isFiniteDouble (li_radius info).

Definition encodableReminder (out : ReminderOutput) : bool :=
  match ro_location out with
  | Some info => encodableLocation info
  | None => true
  end.

(** JavaScript truthiness of an optional string argument: present and not
    empty. *)
Definition supplied (field : option string) : bool :=
  match field with
  | Some v => ToolServer.truthy v
  | None => false
  end.

(** Further runs on the sample store. *)
Module MoreScenarios.

(** The sample lists behind a store that refuses access. *)
Definition locked : EKEventStore.t := EKEventStore.make false [Sample.home; Sample.work].

Definition here : EKStructuredLocation.t :=
  EKStructuredLocation.make (Some "Station")
    (Some (CLLocation.make (S754_finite false 35 0) (S754_finite false 139 0)))
    (S754_finite false 50 0).

Definition recurred : Result unit * World :=
  launch (@SetRecurrence_run Sample.platform "Work" "Ship report" "Weekly" 2 (Some 5)
            None) Sample.store.

Definition unrecurred : Result unit * World :=
  launch (@ClearRecurrence_run Sample.platform "Work" "Ship report") Sample.store.

Definition located : Result unit * World :=
  launch (@SetLocation_run Sample.platform "Work" "Ship report" "Station"
            (S754_finite false 35 0) (S754_finite false 139 0)
            (S754_finite false 50 0) "LEAVE") Sample.store.

Definition prioritised : Result unit * World :=
  launch (@SetPriority_run Sample.platform "Work" "Ship report" 42) Sample.store.

Definition completed : Result unit * World :=
  launch (@CompleteReminder_run Sample.platform "Work" "Ship report") Sample.store.

Definition renamed : Result unit * World :=
  launch (@UpdateReminder_run Sample.platform "Work" "Ship report" (Some "Ship it")
            None (Some "today") (Some "2024-03-15 09:00")) Sample.store.

Definition appendedOnce : Result unit * World :=
  launch (@UpdateReminder_run Sample.platform "Work" "Ship report" None None
            (Some "first") None) Sample.store.

Definition appendedTwice : Result unit * World :=
  launch (@UpdateReminder_run Sample.platform "Work" "Ship report" None None
            (Some "second") None) (store appendedOnce.2).

Definition added : Result unit * World :=
  launch (@AddReminder_run Sample.platform "Work" "Ship report" (Some "again") None)
    Sample.store.

(** An osascript that answers every script with two names. *)
Definition twoLists (script : string) : ToolServer.Process :=
  ToolServer.mkProcess ("Home, Work" +:+ LF) EmptyString 0.

End MoreScenarios.

(** * Collections: removal loops *)

Section RemovalLoops.
Context {A : Type} `{EqDecision A}.

Lemma removeObject_skip (x : A) (pre l : list A) :
  x ∉ pre -> removeObject x (pre ++ x :: l) = pre ++ l.
Proof.
  induction pre as [|y pre IH]; intros Hx; simpl.
  - by rewrite decide_True.
  - apply not_elem_of_cons in Hx as [Hne Hx].
    rewrite decide_False by done. by rewrite IH.
Qed.

(** Removing, one by one, the elements of a snapshot that satisfy [p] leaves
    the elements that do not, in their order. *)
Lemma removal_loop (p : A -> bool) (l pre : list A) :
  Forall (fun x => p x = false) pre ->
  foldl (fun acc x => if p x then removeObject x acc else acc) (pre ++ l) l
  = pre ++ filter (fun x => p x = false) l.
Proof.
  revert pre. induction l as [|x l IH]; intros pre Hpre; simpl.
  - done.
  - destruct (p x) eqn:Hp.
    + rewrite removeObject_skip.
      * rewrite IH by done. by rewrite filter_cons_False by congruence.
      * intros Hin. rewrite Forall_forall in Hpre. specialize (Hpre x Hin). congruence.
    + rewrite filter_cons_True by done.
      rewrite (cons_middle x pre l), (cons_middle x pre (filter _ l)), !app_assoc.
      apply IH. apply Forall_app. split; [done|]. by apply Forall_singleton.
Qed.

End RemovalLoops.

Lemma foldl_alarms (p : EKAlarm.t -> bool) (l : list EKAlarm.t) (t : EKReminder.t) :
  foldl (fun t a => if p a then removeAlarm a t else t) t l
  = EKReminder.set_alarms
      ((fun acc => foldl (fun acc a => if p a then removeObject a acc else acc) acc l)
         <$> EKReminder.alarms t) t.
Proof.
  revert t. induction l as [|a l IH]; intros t; simpl.
  - destruct t as [? ? ? ? ? [al|] ?]; done.
  - rewrite IH. destruct (p a); [|done].
    destruct t as [? ? ? ? ? [al|] ?]; done.
Qed.

Lemma removeAlarmsWhere_alarms (p : EKAlarm.t -> bool) (t : EKReminder.t) :
  removeAlarmsWhere p t
  = EKReminder.set_alarms (filter (fun a => p a = false) <$> EKReminder.alarms t) t.
Proof.
  unfold removeAlarmsWhere. destruct (EKReminder.alarms t) as [al|] eqn:Hal.
  - rewrite foldl_alarms, Hal. simpl. f_equal. f_equal.
    apply (removal_loop p al []). constructor.
  - destruct t; simpl in *; by subst.
Qed.

Lemma foldl_rules (l : list EKRecurrenceRule.t) (t : EKReminder.t) :
  foldl (fun t x => removeRecurrenceRule x t) t l
  = EKReminder.set_recurrenceRules
      ((fun acc => foldl (fun acc x => if true then removeObject x acc else acc) acc l)
         <$> EKReminder.recurrenceRules t) t.
Proof.
  revert t. induction l as [|a l IH]; intros t; simpl.
  - destruct t as [? ? ? ? ? ? [rl|]]; done.
  - rewrite IH. destruct t as [? ? ? ? ? ? [rl|]]; done.
Qed.

Lemma removeAllRecurrenceRules_rules (t : EKReminder.t) :
  removeAllRecurrenceRules t
  = EKReminder.set_recurrenceRules ((fun _ => []) <$> EKReminder.recurrenceRules t) t.
Proof.
  unfold removeAllRecurrenceRules.
  destruct (EKReminder.recurrenceRules t) as [rl|] eqn:Hrl.
  - rewrite foldl_rules, Hrl. simpl. f_equal. f_equal.
    rewrite (removal_loop (fun _ => true) rl []) by constructor.
    simpl. clear Hrl. induction rl as [|x rl IH]; [done|].
    rewrite filter_cons_False; [exact IH|discriminate].
  - destruct t; simpl in *; by subst.
Qed.

(** * Resolution *)

Lemma list_find_tagged {A : Type} (P : A -> Prop) `{forall x, Decision (P x)}
    (ci : nat) (g : nat -> nat) (l : list A) :
  list_find (fun p : Ref * A => P p.2) (imap (fun i r => ((ci, g i), r)) l)
  = (fun x => (x.1, ((ci, g x.1), x.2))) <$> list_find P l.
Proof.
  revert g. induction l as [|x l IH]; intros g; [done|].
  cbn [imap list_find]. simpl. destruct (decide (P x)); [done|].
  change ((fun (i : nat) (r : A) => (ci, g i, r)) ∘ S)
    with (fun (i : nat) (r : A) => (ci, (g ∘ S) i, r)).
  rewrite IH. by destruct (list_find P l) as [[i y]|].
Qed.

Section Resolution.
Context `{Platform}.

Lemma findReminder_run (listName reminderName : string) (w : World) :
  findReminder listName reminderName w
  = (lookupReminder (store w) listName reminderName,
     afterCalls (lookupCalls (store w) listName) w).
Proof.
  unfold findReminder, findList, fetchReminders, lookupReminder, lookupCalls, afterCalls.
  unfold mbind, Cmd_bind, call, getStore, mret, Cmd_ret, throw. simpl.
  destruct (list_find _ (EKEventStore.calendars (store w))) as [[ci c]|] eqn:Hfind; simpl.
  - apply list_find_Some in Hfind as (Hci & _ & _). rewrite Hci. simpl.
    destruct (EKCalendar.reminders c) as [rs|]; simpl.
    + pose proof (list_find_tagged
                    (fun r => EKReminder.title r = Some reminderName) ci id rs) as Htag.
      unfold id in Htag. simpl in Htag. rewrite Htag. clear Htag.
      destruct (list_find _ rs) as [[ri r]|]; simpl; by rewrite <- app_assoc.
    + by rewrite <- app_assoc.
  - done.
Qed.

End Resolution.

Lemma lookupReminder_Return (st : EKEventStore.t) (listName reminderName : string)
    (ref : Ref) (r : EKReminder.t) :
  lookupReminder st listName reminderName = Return (ref, r) <->
  exists c rs,
    list_find (fun c => EKCalendar.title c = listName) (EKEventStore.calendars st)
      = Some (ref.1, c)
    /\ EKCalendar.reminders c = Some rs
    /\ list_find (fun r => EKReminder.title r = Some reminderName) rs = Some (ref.2, r).
Proof.
  unfold lookupReminder. split.
  - destruct (list_find _ (EKEventStore.calendars st)) as [[ci c]|]; [|done].
    destruct (EKCalendar.reminders c) as [rs|] eqn:Hrs; [|done].
    destruct (list_find _ rs) as [[ri r0]|] eqn:Hri; [|done].
    intros [= <- <-]. by exists c, rs.
  - intros (c & rs & -> & -> & ->). by destruct ref.
Qed.

Lemma resolves_lookup (st : EKEventStore.t) (listName reminderName : string)
    (ref : Ref) (r : EKReminder.t) :
  resolves st listName reminderName ref r
  <-> lookupReminder st listName reminderName = Return (ref, r).
Proof. unfold resolves. by rewrite findReminder_run. Qed.

Lemma lookupReminder_errors (st : EKEventStore.t) (listName reminderName : string)
    (e : RemindersError) :
  lookupReminder st listName reminderName = Throw e ->
  e = listNotFound listName \/ e = fetchFailed \/ e = reminderNotFound reminderName.
Proof.
  unfold lookupReminder.
  destruct (list_find _ (EKEventStore.calendars st)) as [[ci c]|];
    [|intros [= <-]; by left].
  destruct (EKCalendar.reminders c) as [rs|]; [|intros [= <-]; right; by left].
  destruct (list_find _ rs) as [[ri r]|]; [done|]. intros [= <-]. right. by right.
Qed.

(** Committing a value with the same title at the position a reminder was
    resolved at makes the same name resolve to the committed value. *)
Lemma lookup_after_write (st : EKEventStore.t) (listName reminderName : string)
    (ref : Ref) (r r' : EKReminder.t) :
  lookupReminder st listName reminderName = Return (ref, r) ->
  EKReminder.title r' = EKReminder.title r ->
  lookupReminder (writeReminder ref r' st) listName reminderName = Return (ref, r').
Proof.
  intros Hl Ht. apply lookupReminder_Return in Hl as (c & rs & Hc & Hrs & Hr).
  apply lookupReminder_Return.
  exists (EKCalendar.make (EKCalendar.title c) (Some (<[ref.2 := r']> rs))),
         (<[ref.2 := r']> rs).
  apply list_find_Some in Hc as (Hci & Hct & Hcfirst).
  apply list_find_Some in Hr as (Hri & Hrt & Hrfirst).
  split; [|split; [reflexivity|]].
  - unfold writeReminder. simpl. apply list_find_Some. split; [|split].
    + rewrite list_lookup_alter, Hci. simpl.
      rewrite decide_True by done. by rewrite Hrs.
    + done.
    + intros j y Hj Hlt. rewrite list_lookup_alter_ne in Hj by lia. eauto.
  - apply list_find_Some. split; [|split].
    + apply list_lookup_insert_eq. by eapply lookup_lt_Some.
    + by rewrite Ht.
    + intros j y Hj Hlt. rewrite list_lookup_insert_ne in Hj by lia. eauto.
Qed.

Section Prelude.
Context `{Platform}.

(** Every mutating sub-command starts by requesting access and resolving its
    target. *)
Lemma prelude_run {A : Type} (listName reminderName : string)
    (k : Ref * EKReminder.t -> Cmd A) (w : World) :
  (requestAccess;; target ← findReminder listName reminderName; k target) w
  = if EKEventStore.accessGranted (store w)
    then match lookupReminder (store w) listName reminderName with
         | Return target =>
             k target (afterCalls (CallRequestAccess :: lookupCalls (store w) listName) w)
         | Throw e =>
             (Throw e, afterCalls (CallRequestAccess :: lookupCalls (store w) listName) w)
         end
    else (Throw accessDenied, afterCalls [CallRequestAccess] w).
Proof.
  unfold requestAccess.
  unfold mbind, Cmd_bind, call, getStore, mret, Cmd_ret, throw. simpl.
  destruct (EKEventStore.accessGranted (store w)); [|done].
  rewrite findReminder_run. simpl.
  unfold afterCalls. simpl. rewrite <- app_assoc. simpl.
  by destruct (lookupReminder (store w) listName reminderName).
Qed.

Lemma save_run (target : Ref * EKReminder.t) (w : World) :
  save target w
  = match commitError (store w) target.2 with
    | Some msg => (Throw (saveFailed msg), afterCalls [CallSave target.1 target.2] w)
    | None =>
        (Return tt,
         mkWorld (writeReminder target.1 target.2 (store w))
                 (calls w ++ [CallSave target.1 target.2]) (stdout w))
    end.
Proof.
  unfold save, mbind, Cmd_bind, call, getStore, putStore, throw. simpl.
  by destruct (commitError (store w) target.2).
Qed.

End Prelude.

(** * Alarms after the mutators *)

Lemma filter_filter_neg {A : Type} (p : A -> bool) (l : list A) :
  filter (fun a => p a = true) (filter (fun a => p a = false) l) = [].
Proof.
  induction l as [|x l IH]; [done|].
  destruct (p x) eqn:Hp.
  - by rewrite (filter_cons_False (fun a => p a = false)) by congruence.
  - rewrite (filter_cons_True (fun a => p a = false)) by done.
    by rewrite filter_cons_False by congruence.
Qed.

Lemma filter_filter_same {A : Type} (p : A -> bool) (l : list A) :
  filter (fun a => p a = false) (filter (fun a => p a = false) l)
  = filter (fun a => p a = false) l.
Proof.
  induction l as [|x l IH]; [done|].
  destruct (p x) eqn:Hp.
  - by rewrite (filter_cons_False (fun a => p a = false)) by congruence.
  - rewrite (filter_cons_True (fun a => p a = false)) by done.
    rewrite (filter_cons_True (fun a => p a = false)) by done. by rewrite IH.
Qed.

Lemma alarmList_removeAlarmsWhere (p : EKAlarm.t -> bool) (t : EKReminder.t) :
  EKReminder.alarmList (removeAlarmsWhere p t)
  = filter (fun a => p a = false) (EKReminder.alarmList t).
Proof.
  rewrite removeAlarmsWhere_alarms. unfold EKReminder.alarmList. simpl.
  by destruct (EKReminder.alarms t).
Qed.

Lemma alarmList_addAlarm (a : EKAlarm.t) (t : EKReminder.t) :
  EKReminder.alarmList (addAlarm a t) = EKReminder.alarmList t ++ [a].
Proof. done. Qed.

Lemma title_removeAlarmsWhere (p : EKAlarm.t -> bool) (t : EKReminder.t) :
  EKReminder.title (removeAlarmsWhere p t) = EKReminder.title t.
Proof. by rewrite removeAlarmsWhere_alarms. Qed.

Lemma title_removeAllRecurrenceRules (t : EKReminder.t) :
  EKReminder.title (removeAllRecurrenceRules t) = EKReminder.title t.
Proof. by rewrite removeAllRecurrenceRules_rules. Qed.

Lemma ruleList_removeAllRecurrenceRules (t : EKReminder.t) :
  EKReminder.ruleList (removeAllRecurrenceRules t) = [].
Proof.
  rewrite removeAllRecurrenceRules_rules. unfold EKReminder.ruleList. simpl.
  by destruct (EKReminder.recurrenceRules t).
Qed.

Lemma filter_absolute_new (ts : Date) :
  filter (fun a => hasAbsoluteDate a = true) [EKAlarm.withAbsoluteDate ts]
  = [EKAlarm.withAbsoluteDate ts].
Proof. reflexivity. Qed.

Lemma filter_absolute_new_neg (ts : Date) :
  filter (fun a => hasAbsoluteDate a = false) [EKAlarm.withAbsoluteDate ts] = [].
Proof. reflexivity. Qed.

Lemma filter_time_of_absolute (l : list EKAlarm.t) :
  filter (fun a => isTimeAlarm a = true) l
  = filter (fun a => isTimeAlarm a = true) (filter (fun a => hasAbsoluteDate a = true) l).
Proof.
  induction l as [|a l IH]; [done|]. unfold isTimeAlarm in *.
  destruct (hasAbsoluteDate a) eqn:Ha.
  - rewrite (filter_cons_True (fun a => hasAbsoluteDate a = true)) by done.
    destruct (hasStructuredLocation a) eqn:Hs.
    + rewrite !(filter_cons_False (fun a => _ && _ = true)) by (by rewrite Ha, Hs).
      exact IH.
    + rewrite !(filter_cons_True (fun a => _ && _ = true)) by (by rewrite Ha, Hs).
      by rewrite IH.
  - rewrite (filter_cons_False (fun a => hasAbsoluteDate a = true)) by congruence.
    rewrite filter_cons_False by (by rewrite Ha). exact IH.
Qed.

Section Mutators.
Context `{Platform}.

(** What a successful set-remind-date did. *)
Lemma SetRemindDate_succeeded (st : EKEventStore.t) (listName reminder date : string) :
  succeeded (launch (SetRemindDate_run listName reminder date) st) ->
  exists ref r ts,
    lookupReminder st listName reminder = Return (ref, r)
    /\ dateFromString date = Some ts
    /\ store (launch (SetRemindDate_run listName reminder date) st).2
       = writeReminder ref
           (addAlarm (EKAlarm.withAbsoluteDate ts) (removeAlarmsWhere hasAbsoluteDate r))
           st.
Proof.
  unfold launch, SetRemindDate_run. rewrite prelude_run. simpl.
  destruct (EKEventStore.accessGranted st); [|by intros [[=] _]].
  destruct (lookupReminder st listName reminder) as [e|[ref r]]; [by intros [[=] _]|].
  unfold parseDate.
  destruct (dateFromString date) as [ts|] eqn:Hts;
    unfold mbind at 1, Cmd_bind, throw, mret, Cmd_ret; simpl; [|by intros [[=] _]].
  unfold mbind, Cmd_bind. rewrite save_run. simpl.
  destruct (commitError _ _); simpl; [by intros [[=] _]|].
  intros _. by exists ref, r, ts.
Qed.

(** C1. Two successive successful set-remind-date calls on a reminder leave
    exactly one alarm with an absolute date on it (so exactly one time
    alarm), the one built from the date of the second call; each call removes
    every alarm having an absolute date and appends one new time alarm, and
    the alarms without an absolute date are the ones the reminder had
    before. *)
Theorem set_remind_date_twice (st : EKEventStore.t)
    (listName reminder date1 date2 : string) :
  let o1 := launch (SetRemindDate_run listName reminder date1) st in
  let o2 := launch (SetRemindDate_run listName reminder date2) (store o1.2) in
  succeeded o1 -> succeeded o2 ->
  exists ref r0 r2 ts,
    resolves st listName reminder ref r0
    /\ resolves (store o2.2) listName reminder ref r2
    /\ dateFromString date2 = Some ts
    /\ filter (fun a => hasAbsoluteDate a = true) (EKReminder.alarmList r2)
       = [EKAlarm.withAbsoluteDate ts]
    /\ filter (fun a => isTimeAlarm a = true) (EKReminder.alarmList r2)
       = [EKAlarm.withAbsoluteDate ts]
    /\ filter (fun a => hasAbsoluteDate a = false) (EKReminder.alarmList r2)
       = filter (fun a => hasAbsoluteDate a = false) (EKReminder.alarmList r0).
Proof.
  intros o1 o2 H1 H2. subst o1 o2.
  apply SetRemindDate_succeeded in H1 as (ref & r0 & ts1 & Hl1 & Hd1 & Hst1).
  pose proof H2 as H2'.
  apply SetRemindDate_succeeded in H2' as (ref' & r1 & ts2 & Hl2 & Hd2 & Hst2).
  rewrite Hst1 in Hl2.
  erewrite lookup_after_write in Hl2; [| exact Hl1 |].
  2:{ simpl. by rewrite title_removeAlarmsWhere. }
  injection Hl2 as <- <-.
  exists ref, r0,
    (addAlarm (EKAlarm.withAbsoluteDate ts2)
       (removeAlarmsWhere hasAbsoluteDate
          (addAlarm (EKAlarm.withAbsoluteDate ts1)
             (removeAlarmsWhere hasAbsoluteDate r0)))), ts2.
  split; [by apply resolves_lookup|].
  split.
  { apply resolves_lookup. rewrite Hst2, Hst1.
    eapply lookup_after_write.
    - eapply lookup_after_write; [exact Hl1|].
      simpl. by rewrite title_removeAlarmsWhere.
    - simpl. by rewrite title_removeAlarmsWhere. }
  split; [done|].
  rewrite (filter_time_of_absolute (EKReminder.alarmList (addAlarm _ _))).
  rewrite !alarmList_addAlarm, !alarmList_removeAlarmsWhere, !alarmList_addAlarm,
    !alarmList_removeAlarmsWhere.
  rewrite !filter_app, filter_filter_neg, !filter_filter_same.
  rewrite ?filter_filter_neg, !filter_absolute_new, !filter_absolute_new_neg.
  simpl. split; [done|]. split; [done|]. by rewrite !app_nil_r.
Qed.

Lemma parseFrequency_Some (frequency : string) (freq : EKRecurrenceFrequency) :
  parseFrequency frequency = Some freq -> frequencyString freq = lowercased frequency.
Proof.
  unfold parseFrequency.
  repeat match goal with
         | |- context [String.eqb ?a ?b] =>
             let E := fresh "E" in
             destruct (String.eqb a b) eqn:E;
             [apply String.eqb_eq in E; by intros [= <-] | clear E]
         end.
  done.
Qed.

(** What a successful set-recurrence did. *)
Lemma SetRecurrence_succeeded (st : EKEventStore.t)
    (listName reminder frequency : string) (interval : Z)
    (endCount : option Z) (endDate : option string) :
  succeeded
    (launch (SetRecurrence_run listName reminder frequency interval endCount endDate) st) ->
  exists ref r freq e,
    lookupReminder st listName reminder = Return (ref, r)
    /\ parseFrequency frequency = Some freq
    /\ endCondition endCount endDate e
    /\ store (launch (SetRecurrence_run listName reminder frequency interval
                        endCount endDate) st).2
       = writeReminder ref
           (addRecurrenceRule (EKRecurrenceRule.recurrenceWith freq interval e)
              (removeAllRecurrenceRules r))
           st.
Proof.
  unfold launch, SetRecurrence_run. rewrite prelude_run. simpl.
  destruct (EKEventStore.accessGranted st); [|by intros [[=] _]].
  destruct (lookupReminder st listName reminder) as [e|[ref r]]; [by intros [[=] _]|].
  destruct (parseFrequency frequency) as [freq|]; [|by intros [_ [msg [=]]]].
  unfold recurrenceEndOf, endCondition, parseDate.
  destruct endCount as [count|]; [|destruct endDate as [dateStr|];
    [destruct (dateFromString dateStr) as [d|] eqn:Hd|]];
    unfold mbind, Cmd_bind, throw, mret, Cmd_ret; simpl;
    try (by intros [[=] _]);
    rewrite save_run; simpl;
    (destruct (commitError _ _); simpl; [by intros [[=] _]|]);
    intros _; eexists ref, r, freq, _; (split; [done|]); (split; [done|]);
    (split; [|reflexivity]); eauto.
Qed.

(** C2. Two successive successful set-recurrence calls on a reminder leave
    exactly one recurrence rule on it, built from the frequency, interval and
    end condition of the second call, whatever rules the store held before. *)
Theorem set_recurrence_twice (st : EKEventStore.t) (listName reminder : string)
    (frequency1 frequency2 : string) (interval1 interval2 : Z)
    (endCount1 endCount2 : option Z) (endDate1 endDate2 : option string) :
  let o1 := launch (SetRecurrence_run listName reminder frequency1 interval1
                      endCount1 endDate1) st in
  let o2 := launch (SetRecurrence_run listName reminder frequency2 interval2
                      endCount2 endDate2) (store o1.2) in
  succeeded o1 -> succeeded o2 ->
  exists ref r0 r2 freq e,
    resolves st listName reminder ref r0
    /\ resolves (store o2.2) listName reminder ref r2
    /\ parseFrequency frequency2 = Some freq
    /\ frequencyString freq = lowercased frequency2
    /\ endCondition endCount2 endDate2 e
    /\ EKReminder.ruleList r2 = [EKRecurrenceRule.recurrenceWith freq interval2 e].
Proof.
  intros o1 o2 H1 H2. subst o1 o2.
  apply SetRecurrence_succeeded in H1 as (ref & r0 & f1 & e1 & Hl1 & _ & _ & Hst1).
  pose proof H2 as H2'.
  apply SetRecurrence_succeeded in H2' as (ref' & r1 & f2 & e2 & Hl2 & Hf2 & He2 & Hst2).
  rewrite Hst1 in Hl2.
  erewrite lookup_after_write in Hl2; [| exact Hl1 |].
  2:{ simpl. by rewrite title_removeAllRecurrenceRules. }
  injection Hl2 as <- <-.
  eexists ref, r0, _, f2, e2.
  split; [by apply resolves_lookup|].
  split.
  { apply resolves_lookup. rewrite Hst2, Hst1.
    eapply lookup_after_write.
    - eapply lookup_after_write; [exact Hl1|].
      simpl. by rewrite title_removeAllRecurrenceRules.
    - simpl. by rewrite title_removeAllRecurrenceRules. }
  split; [done|]. split; [by apply parseFrequency_Some|]. split; [done|].
  unfold addRecurrenceRule at 1. unfold EKReminder.ruleList at 1. simpl.
  by rewrite ruleList_removeAllRecurrenceRules.
Qed.

(** What a successful clear-location did. *)
Lemma ClearLocation_succeeded (st : EKEventStore.t) (listName reminder : string) :
  succeeded (launch (ClearLocation_run listName reminder) st) ->
  exists ref r,
    EKEventStore.accessGranted st = true
    /\ lookupReminder st listName reminder = Return (ref, r)
    /\ store (launch (ClearLocation_run listName reminder) st).2
       = writeReminder ref (removeAlarmsWhere hasStructuredLocation r) st.
Proof.
  unfold launch, ClearLocation_run. rewrite prelude_run. simpl.
  destruct (EKEventStore.accessGranted st); [|by intros [[=] _]].
  destruct (lookupReminder st listName reminder) as [e|[ref r]]; [by intros [[=] _]|].
  unfold mbind, Cmd_bind. rewrite save_run. simpl.
  destruct (commitError _ _); simpl; [by intros [[=] _]|].
  intros _. by exists ref, r.
Qed.

Lemma locationOfAlarms_none (alarms : list EKAlarm.t) :
  Forall (fun a => hasStructuredLocation a = false) alarms ->
  locationOfAlarms alarms = (None, false).
Proof.
  induction 1 as [|a l Ha _ IH]; [done|]. simpl.
  unfold hasStructuredLocation in Ha.
  destruct (EKAlarm.structuredLocation a); [|done].
  apply bool_decide_eq_false in Ha. by destruct Ha.
Qed.

Lemma toOutput_no_location (r : EKReminder.t) :
  Forall (fun a => hasStructuredLocation a = false) (EKReminder.alarmList r) ->
  ro_hasLocation (toOutput r) = false /\ ro_location (toOutput r) = None.
Proof.
  intros Hall. unfold toOutput, EKReminder.alarmList in *.
  destruct (EKReminder.alarms r) as [alarms|]; simpl in *; [|done].
  by rewrite locationOfAlarms_none.
Qed.

(** C3. A successful clear-location removes exactly the alarms that carry a
    structured location: the alarms kept are the ones without a structured
    location, in their order, so every time alarm is still there, and nothing
    else of the reminder changes.  A get-location that follows finds no
    location: [hasLocation] is false and the command prints the "no location
    set" envelope. *)
Theorem clear_location_keeps_time_alarms (st : EKEventStore.t)
    (listName reminder : string) :
  let o := launch (ClearLocation_run listName reminder) st in
  succeeded o ->
  exists ref r0 r1,
    resolves st listName reminder ref r0
    /\ resolves (store o.2) listName reminder ref r1
    /\ r1 = EKReminder.set_alarms (EKReminder.alarms r1) r0
    /\ EKReminder.alarmList r1
       = filter (fun a => isLocationAlarm a = false) (EKReminder.alarmList r0)
    /\ filter (fun a => isTimeAlarm a = true) (EKReminder.alarmList r1)
       = filter (fun a => isTimeAlarm a = true) (EKReminder.alarmList r0)
    /\ ro_hasLocation (toOutput r1) = false
    /\ ro_location (toOutput r1) = None
    /\ (launch (GetLocation_run listName reminder) (store o.2)).1 = Return tt
    /\ stdout (launch (GetLocation_run listName reminder) (store o.2)).2
       = [OutSuccess (mkSuccessOutput true "場所ベースの通知は設定されていません")].
Proof.
  intros o Ho. subst o.
  apply ClearLocation_succeeded in Ho as (ref & r0 & Hacc & Hl & Hst).
  rewrite Hst. clear Hst.
  assert (Hl1 : lookupReminder
                  (writeReminder ref (removeAlarmsWhere hasStructuredLocation r0) st)
                  listName reminder
                = Return (ref, removeAlarmsWhere hasStructuredLocation r0)).
  { eapply lookup_after_write; [exact Hl|]. by rewrite title_removeAlarmsWhere. }
  assert (Hlist : EKReminder.alarmList (removeAlarmsWhere hasStructuredLocation r0)
                  = filter (fun a => isLocationAlarm a = false) (EKReminder.alarmList r0))
    by apply alarmList_removeAlarmsWhere.
  assert (Hnone : Forall (fun a => hasStructuredLocation a = false)
                    (EKReminder.alarmList (removeAlarmsWhere hasStructuredLocation r0))).
  { rewrite Hlist. apply Forall_forall. intros a Ha.
    by apply list_elem_of_filter in Ha as [Ha _]. }
  destruct (toOutput_no_location _ Hnone) as [Hhas Hloc].
  exists ref, r0, (removeAlarmsWhere hasStructuredLocation r0).
  split; [by apply resolves_lookup|].
  split; [by apply resolves_lookup|].
  split; [by rewrite removeAlarmsWhere_alarms|].
  split; [done|].
  split.
  { rewrite Hlist. clear. induction (EKReminder.alarmList r0) as [|a l IH]; [done|].
    unfold isTimeAlarm, isLocationAlarm in *.
    destruct (hasStructuredLocation a) eqn:Hs.
    - rewrite (filter_cons_False (fun a => hasStructuredLocation a = false)) by congruence.
      rewrite IH. rewrite filter_cons_False; [done|].
      rewrite Hs. by destruct (hasAbsoluteDate a).
    - rewrite (filter_cons_True (fun a => hasStructuredLocation a = false)) by done.
      destruct (hasAbsoluteDate a) eqn:Ha.
      + rewrite !(filter_cons_True (fun a => _ && _ = true)) by (by rewrite Ha, Hs).
        by rewrite IH.
      + rewrite !(filter_cons_False (fun a => _ && _ = true)) by (by rewrite Ha, Hs).
        by rewrite IH. }
  split; [done|]. split; [done|].
  unfold launch, GetLocation_run. rewrite prelude_run. simpl.
  rewrite Hacc, Hl1. simpl. by rewrite Hloc.
Qed.

End Mutators.

(** * The resolver *)

(** C4. [findReminder] only reads the store.  It returns a reminder exactly
    when the first calendar whose title equals the requested list name exists,
    its unfiltered fetch (completed reminders included) succeeds, and the
    reminder is the first of that calendar whose title equals the requested
    title; it throws [listNotFound] exactly when no calendar has that title
    and [reminderNotFound] exactly when the list was fetched and no reminder
    of it has the title.  Hence a returned reminder has the requested title. *)
Theorem findReminder_first_exact_match (w : World) (listName title : string) :
  let cals := EKEventStore.calendars (store w) in
  let out := (findReminder listName title w).1 in
  store (findReminder listName title w).2 = store w
  /\ (forall ref r,
        out = Return (ref, r) <->
        exists c rs,
          cals !! ref.1 = Some c
          /\ EKCalendar.title c = listName
          /\ (forall j c', cals !! j = Some c' -> (j < ref.1)%nat ->
                EKCalendar.title c' <> listName)
          /\ EKCalendar.reminders c = Some rs
          /\ rs !! ref.2 = Some r
          /\ EKReminder.title r = Some title
          /\ (forall j r', rs !! j = Some r' -> (j < ref.2)%nat ->
                EKReminder.title r' <> Some title))
  /\ (out = Throw (listNotFound listName) <->
      Forall (fun c => EKCalendar.title c <> listName) cals)
  /\ (out = Throw (reminderNotFound title) <->
      exists ci c rs,
        list_find (fun c => EKCalendar.title c = listName) cals = Some (ci, c)
        /\ EKCalendar.reminders c = Some rs
        /\ Forall (fun r => EKReminder.title r <> Some title) rs)
  /\ (forall ref r, out = Return (ref, r) -> EKReminder.title r = Some title)
  /\ (forall e, out = Throw e ->
        e = listNotFound listName \/ e = fetchFailed \/ e = reminderNotFound title).
Proof.
  intros cals out. subst cals out. rewrite findReminder_run. simpl.
  split; [done|]. split; [|split; [|split; [|split]]].
  - intros ref r. rewrite lookupReminder_Return. split.
    + intros (c & rs & Hc & Hrs & Hr).
      apply list_find_Some in Hc as (? & ? & ?).
      apply list_find_Some in Hr as (? & ? & ?).
      by exists c, rs.
    + intros (c & rs & ? & ? & ? & ? & ? & ? & ?).
      exists c, rs. split; [by apply list_find_Some|].
      split; [done|]. by apply list_find_Some.
  - unfold lookupReminder.
    destruct (list_find _ (EKEventStore.calendars (store w))) as [[ci c]|] eqn:Hc.
    + split.
      * destruct (EKCalendar.reminders c) as [rs|]; [|done].
        by destruct (list_find _ rs) as [[ri r]|].
      * intros Hall.
        apply (list_find_None (fun c => EKCalendar.title c = listName)) in Hall.
        congruence.
    + split; [|done]. intros _.
      by apply (list_find_None (fun c => EKCalendar.title c = listName)).
  - unfold lookupReminder.
    destruct (list_find _ (EKEventStore.calendars (store w))) as [[ci c]|] eqn:Hc.
    + destruct (EKCalendar.reminders c) as [rs|] eqn:Hrs.
      * destruct (list_find _ rs) as [[ri r]|] eqn:Hr.
        -- split; [done|]. intros (ci' & c' & rs' & [= <- <-] & Hrs' & Hall).
           rewrite Hrs in Hrs'. injection Hrs' as <-.
           apply (list_find_None (fun r => EKReminder.title r = Some title)) in Hall.
           congruence.
        -- split; [|done]. intros _. exists ci, c, rs.
           split; [done|]. split; [done|].
           by apply (list_find_None (fun r => EKReminder.title r = Some title)).
      * split; [done|]. intros (ci' & c' & rs' & [= <- <-] & Hrs' & _). congruence.
    + split; [done|]. by intros (? & ? & ? & [=] & _).
  - intros ref r Hl. apply lookupReminder_Return in Hl as (c & rs & _ & _ & Hr).
    by apply list_find_Some in Hr as (_ & ? & _).
  - intros e. apply lookupReminder_errors.
Qed.

(** A completed reminder is resolved like any other. *)
Example completed_reminder_resolves :
  resolves Sample.store "Work" "Archive mail" (1%nat, 0%nat) Sample.archived
  /\ EKReminder.isCompleted Sample.archived = true.
Proof. split; reflexivity. Qed.

(** * update *)

(** Closes a goal whose hypothesis [H] puts a [CallSave] in an explicit list
    of other calls. *)
Ltac not_in_calls H :=
  simpl in H;
  repeat (apply elem_of_cons in H as [H|H]; [discriminate H|]);
  by apply elem_of_nil in H.

Section Update.
Context `{Platform}.

(** C6. An update call that supplies none of newName, newBody, appendBody and
    newDueDate returns after printing the [{success: false}] envelope; it
    throws nothing, makes no gateway call (no access request, no resolution,
    no save) and leaves the store as it is.  This holds on every store, also
    when access would be denied or the reminder would not resolve. *)
Theorem update_without_fields (st : EKEventStore.t) (listName reminder : string)
    (newName newBody appendBody newDueDate : option string) :
  newName = None -> newBody = None -> appendBody = None -> newDueDate = None ->
  let o := launch (UpdateReminder_run listName reminder newName newBody appendBody
                     newDueDate) st in
  o.1 = Return tt
  /\ stdout o.2 = [OutSuccess (mkSuccessOutput false "更新する項目が指定されていません")]
  /\ calls o.2 = []
  /\ store o.2 = st
  /\ (forall w,
        (UpdateReminder_run listName reminder newName newBody appendBody newDueDate w).1
          = Return tt
        /\ store (UpdateReminder_run listName reminder newName newBody appendBody
                    newDueDate w).2 = store w
        /\ calls (UpdateReminder_run listName reminder newName newBody appendBody
                    newDueDate w).2 = calls w).
Proof.
  intros -> -> -> -> o. subst o.
  unfold launch, UpdateReminder_run, notNil. simpl.
  unfold outputSuccess, outputJSON. simpl.
  repeat split.
Qed.

(** The supplied fields are applied in the order name, body, append, due
    date: with all four given and a date that parses, the committed reminder
    has the new title, the new body followed by the appended text, and the
    new due date. *)
Lemma update_applies_in_order (st : EKEventStore.t) (listName reminder : string)
    (name body append dueDateStr : string) (date : Date) (ref : Ref) (r : EKReminder.t) :
  EKEventStore.accessGranted st = true ->
  lookupReminder st listName reminder = Return (ref, r) ->
  dateFromString dueDateStr = Some date ->
  commitError st
    (EKReminder.make (Some name) (Some (body +:+ LF +:+ append))
       (EKReminder.isCompleted r) (Some (dateToComponents date))
       (EKReminder.priority r) (EKReminder.alarms r) (EKReminder.recurrenceRules r))
  = None ->
  store (launch (UpdateReminder_run listName reminder (Some name) (Some body)
                   (Some append) (Some dueDateStr)) st).2
  = writeReminder ref
      (EKReminder.make (Some name) (Some (body +:+ LF +:+ append))
         (EKReminder.isCompleted r) (Some (dateToComponents date))
         (EKReminder.priority r) (EKReminder.alarms r) (EKReminder.recurrenceRules r))
      st.
Proof.
  intros Hacc Hl Hd Hc. unfold launch, UpdateReminder_run. simpl.
  rewrite prelude_run. simpl. rewrite Hacc, Hl. unfold parseDate. rewrite Hd.
  unfold mbind, Cmd_bind, mret, Cmd_ret. rewrite save_run. simpl.
  unfold EKReminder.set_dueDateComponents, EKReminder.set_notes, EKReminder.set_title.
  simpl. by rewrite Hc.
Qed.

(** C10. An update call whose newDueDate does not parse changes nothing in
    the store, whatever other fields it supplies: the run throws, prints
    nothing and never calls save; when access is granted and the reminder
    resolves the error is [invalidDate] of the supplied text.  The fields are
    applied in the order name, body, append, due date, as the committed value
    of a call that supplies all four with a date that parses shows. *)
Theorem update_invalid_date_atomic (st : EKEventStore.t) (listName reminder : string)
    (newName newBody appendBody : option string) (newDueDate : string) :
  dateFromString newDueDate = None ->
  let o := launch (UpdateReminder_run listName reminder newName newBody appendBody
                     (Some newDueDate)) st in
  store o.2 = st
  /\ stdout o.2 = []
  /\ (forall ref r, CallSave ref r ∉ calls o.2)
  /\ (exists e, o.1 = Throw e)
  /\ (forall ref r,
        EKEventStore.accessGranted st = true ->
        resolves st listName reminder ref r ->
        o.1 = Throw (invalidDate newDueDate))
  /\ (forall name body append dueDateStr date ref r,
        let committed :=
          EKReminder.make (Some name) (Some (body +:+ LF +:+ append))
            (EKReminder.isCompleted r) (Some (dateToComponents date))
            (EKReminder.priority r) (EKReminder.alarms r)
            (EKReminder.recurrenceRules r) in
        EKEventStore.accessGranted st = true ->
        resolves st listName reminder ref r ->
        dateFromString dueDateStr = Some date ->
        commitError st committed = None ->
        store (launch (UpdateReminder_run listName reminder (Some name) (Some body)
                         (Some append) (Some dueDateStr)) st).2
        = writeReminder ref committed st).
Proof.
  intros Hd o. subst o.
  split; [|split; [|split; [|split; [|split]]]].
  6:{ intros name body append dueDateStr date ref r committed Hacc Hr Hdate Hc.
      apply resolves_lookup in Hr. by eapply update_applies_in_order. }
  all: unfold launch, UpdateReminder_run.
  all: replace (notNil newName || notNil newBody || notNil appendBody
                || notNil (Some newDueDate)) with true
         by (by destruct newName, newBody, appendBody).
  all: rewrite prelude_run; simpl.
  all: destruct (EKEventStore.accessGranted st) eqn:Hacc.
  all: try (destruct (lookupReminder st listName reminder) as [e0|[ref0 r0]] eqn:Hl).
  all: unfold parseDate; rewrite ?Hd; unfold mbind, Cmd_bind, throw; simpl.
  all: try done.
  all: try (intros ref r Hin; unfold lookupCalls in Hin;
            try destruct (list_find _ _) as [[ci c]|]; not_in_calls Hin).
  all: try (by eexists).
  all: intros ref r _ Hr; apply resolves_lookup in Hr; congruence.
Qed.

End Update.

(** * set-recurrence: frequency and end condition *)

Section Recurrence.
Context `{Platform}.

(** The [RemindersError]s a set-recurrence run can throw. *)
Lemma SetRecurrence_failures (st : EKEventStore.t)
    (listName reminder frequency : string) (interval : Z)
    (endCount : option Z) (endDate : option string) (e : RemindersError) :
  (launch (SetRecurrence_run listName reminder frequency interval endCount endDate) st).1
    = Throw e ->
  e = accessDenied \/ e = listNotFound listName \/ e = fetchFailed
  \/ e = reminderNotFound reminder
  \/ (exists s, endCount = None /\ endDate = Some s /\ dateFromString s = None
                /\ e = invalidDate s)
  \/ (exists msg, e = saveFailed msg).
Proof.
  unfold launch, SetRecurrence_run. rewrite prelude_run. simpl.
  destruct (EKEventStore.accessGranted st); [|intros [= <-]; by left].
  destruct (lookupReminder st listName reminder) as [e0|[ref r]] eqn:Hl.
  { intros [= <-]. destruct (lookupReminder_errors _ _ _ _ Hl) as [-> | [-> | ->]]; tauto. }
  destruct (parseFrequency frequency) as [freq|]; [|done].
  unfold recurrenceEndOf, parseDate.
  destruct endCount as [count|]; [|destruct endDate as [dateStr|];
    [destruct (dateFromString dateStr) as [d|] eqn:Hd|]];
    unfold mbind, Cmd_bind, throw, mret, Cmd_ret; simpl;
    try (intros [= <-]; do 4 right; left; by exists dateStr);
    rewrite save_run; simpl;
    (destruct (commitError _ _) as [msg|]; simpl; [|done]);
    intros [= <-]; do 5 right; by exists msg.
Qed.

(** The resolution of the target makes no save call. *)
Lemma lookupCalls_no_save (st : EKEventStore.t) (listName : string)
    (ref : Ref) (r : EKReminder.t) :
  CallSave ref r ∉ CallRequestAccess :: lookupCalls st listName.
Proof.
  intros Hin. unfold lookupCalls in Hin.
  destruct (list_find _ _) as [[ci c]|]; not_in_calls Hin.
Qed.

Lemma ruleList_addRecurrenceRule (rule : EKRecurrenceRule.t) (r : EKReminder.t) :
  EKReminder.ruleList (addRecurrenceRule rule (removeAllRecurrenceRules r)) = [rule].
Proof.
  unfold addRecurrenceRule at 1. unfold EKReminder.ruleList at 1. simpl.
  by rewrite ruleList_removeAllRecurrenceRules.
Qed.

(** C9. When set-recurrence is given an end count, the end date argument
    plays no part: the run is the same whatever end date accompanies the
    count, the end condition is built from the count, and no [invalidDate]
    error can come out of it.  The reminder the run hands to save carries one
    rule, whose end is the occurrence count; when access is granted, the
    reminder resolves, the frequency is valid and the store accepts the
    commit, the run succeeds, also with an end date that does not parse, and
    the name then resolves at the same position to a reminder whose only
    rule ends after the count. *)
Theorem end_count_takes_precedence (st : EKEventStore.t)
    (listName reminder frequency : string) (interval count : Z)
    (endDate endDate' : option string) :
  let o := launch (SetRecurrence_run listName reminder frequency interval
                     (Some count) endDate) st in
  o = launch (SetRecurrence_run listName reminder frequency interval (Some count) endDate') st
  /\ (forall w, recurrenceEndOf (Some count) endDate w
                = (Return (Some (EKRecurrenceEnd.withOccurrenceCount count)), w))
  /\ (forall s, o.1 <> Throw (invalidDate s))
  /\ (forall ref r, CallSave ref r ∈ calls o.2 ->
        exists freq,
          parseFrequency frequency = Some freq
          /\ EKReminder.ruleList r = [countedRule freq interval count]
          /\ EKRecurrenceRule.recurrenceEnd <$> EKReminder.ruleList r
             = [Some (EKRecurrenceEnd.make None count)])
  /\ (forall ref r0 freq,
        EKEventStore.accessGranted st = true ->
        resolves st listName reminder ref r0 ->
        parseFrequency frequency = Some freq ->
        commitError st (addRecurrenceRule (countedRule freq interval count)
                          (removeAllRecurrenceRules r0)) = None ->
        succeeded o
        /\ CallSave ref (addRecurrenceRule (countedRule freq interval count)
                           (removeAllRecurrenceRules r0)) ∈ calls o.2)
  /\ (succeeded o ->
        exists ref r0 r1 freq,
          resolves st listName reminder ref r0
          /\ resolves (store o.2) listName reminder ref r1
          /\ parseFrequency frequency = Some freq
          /\ EKReminder.ruleList r1 = [countedRule freq interval count]).
Proof.
  intros o. subst o.
  split; [reflexivity|]. split; [reflexivity|].
  split.
  { intros s Hs. apply SetRecurrence_failures in Hs.
    destruct Hs as [Hs|[Hs|[Hs|[Hs|[(s' & Hc & _)|(msg & Hs)]]]]]; done. }
  split; [|split].
  - unfold launch, SetRecurrence_run. rewrite prelude_run. simpl.
    destruct (EKEventStore.accessGranted st); [|intros ref r Hin; not_in_calls Hin].
    destruct (lookupReminder st listName reminder) as [e0|[ref0 r0]].
    { intros ref r Hin. by apply lookupCalls_no_save in Hin. }
    destruct (parseFrequency frequency) as [freq|].
    2:{ intros ref r Hin. by apply lookupCalls_no_save in Hin. }
    unfold recurrenceEndOf, mbind, Cmd_bind, mret, Cmd_ret. simpl.
    rewrite save_run. simpl.
    intros ref r Hin. exists freq. split; [done|].
    assert (r = addRecurrenceRule (countedRule freq interval count)
                  (removeAllRecurrenceRules r0)) as ->.
    { destruct (commitError _ _); simpl in Hin;
        (apply elem_of_cons in Hin as [Hin|Hin]; [discriminate Hin|]);
        (apply elem_of_app in Hin as [Hin|Hin];
           [exfalso; eapply lookupCalls_no_save; by apply list_elem_of_further|]);
        apply list_elem_of_singleton in Hin; by injection Hin. }
    rewrite ruleList_addRecurrenceRule. by split.
  - intros ref r0 freq Hacc Hr Hf Hc. apply resolves_lookup in Hr.
    unfold launch, SetRecurrence_run. rewrite prelude_run. simpl.
    rewrite Hacc, Hr, Hf.
    unfold recurrenceEndOf, mbind, Cmd_bind, mret, Cmd_ret. simpl.
    rewrite save_run. simpl. unfold countedRule in Hc. rewrite Hc. simpl.
    split; [split; [done|by eexists]|].
    apply list_elem_of_further, elem_of_app. right. apply list_elem_of_singleton.
    reflexivity.
  - intros Hs. pose proof Hs as Hs'.
    apply SetRecurrence_succeeded in Hs' as (ref & r0 & freq & e & Hl & Hf & He & Hst).
    simpl in He. subst e.
    eexists ref, r0, _, freq.
    split; [by apply resolves_lookup|].
    split.
    { apply resolves_lookup. rewrite Hst.
      eapply lookup_after_write; [exact Hl|].
      simpl. by rewrite title_removeAllRecurrenceRules. }
    split; [done|]. apply ruleList_addRecurrenceRule.
Qed.

(** C7 (as the helper implements it). A set-recurrence call whose frequency,
    lowercased, is none of daily, weekly, monthly and yearly never changes
    the store and never calls save.  When access is granted and the reminder
    resolves, the run returns normally after printing the [{success: false}]
    envelope that names the frequency; it does not throw, and the end date
    is not looked at.  When access is granted and the reminder does not
    resolve, the error of the resolution is thrown and nothing is printed.
    An [invalidDate] error belongs to the calls with a valid frequency: it is
    thrown, with the store left as it is, when the reminder resolves and an
    end date given without an end count does not parse. *)
Theorem set_recurrence_invalid_frequency (st : EKEventStore.t)
    (listName reminder frequency : string) (interval : Z)
    (endCount : option Z) (endDate : option string) :
  parseFrequency frequency = None ->
  let o := launch (SetRecurrence_run listName reminder frequency interval
                     endCount endDate) st in
  store o.2 = st
  /\ (forall ref r, CallSave ref r ∉ calls o.2)
  /\ (forall ref r,
        EKEventStore.accessGranted st = true ->
        resolves st listName reminder ref r ->
        o.1 = Return tt
        /\ stdout o.2
           = [OutSuccess (mkSuccessOutput false
                ("無効な頻度: " +:+ frequency +:+ " (daily/weekly/monthly/yearly)"))])
  /\ (forall e,
        EKEventStore.accessGranted st = true ->
        (findReminder listName reminder (mkWorld st [] [])).1 = Throw e ->
        o.1 = Throw e /\ stdout o.2 = [])
  /\ (forall s, o.1 <> Throw (invalidDate s))
  /\ (forall frequency' freq ref r s,
        parseFrequency frequency' = Some freq ->
        EKEventStore.accessGranted st = true ->
        resolves st listName reminder ref r ->
        endCount = None -> endDate = Some s -> dateFromString s = None ->
        let o' := launch (SetRecurrence_run listName reminder frequency' interval
                            endCount endDate) st in
        o'.1 = Throw (invalidDate s) /\ store o'.2 = st /\ stdout o'.2 = []).
Proof.
  intros Hf o. subst o.
  split; [|split; [|split; [|split; [|split]]]].
  6:{ intros frequency' freq ref r s Hf' Hacc Hr -> -> Hd o'. subst o'.
      apply resolves_lookup in Hr.
      unfold launch, SetRecurrence_run. rewrite prelude_run. simpl.
      rewrite Hacc, Hr, Hf'.
      unfold recurrenceEndOf, parseDate. rewrite Hd.
      by unfold mbind, Cmd_bind, throw. }
  all: unfold launch, SetRecurrence_run; rewrite prelude_run; simpl.
  all: destruct (EKEventStore.accessGranted st) eqn:Hacc.
  all: try (destruct (lookupReminder st listName reminder) as [e0|[ref0 r0]] eqn:Hl);
       rewrite ?Hf; simpl.
  all: try done.
  all: try (intros ref r Hin; unfold lookupCalls in Hin;
            try destruct (list_find _ _) as [[ci c]|]; not_in_calls Hin).
  all: try (intros ref r _ Hr; apply resolves_lookup in Hr; congruence).
  all: try (intros e _; rewrite findReminder_run; simpl; rewrite Hl; simpl; by intros [= <-]).
  all: try (intros e _; rewrite findReminder_run; simpl; by rewrite Hl).
  intros s [= ->].
  destruct (lookupReminder_errors _ _ _ _ Hl) as [? | [? | ?]]; done.
Qed.

End Recurrence.

(** The frequency is compared after lowercasing. *)
Example parseFrequency_uppercase :
  @parseFrequency Sample.platform "DAILY" = Some Daily.
Proof. reflexivity. Qed.

(** * set-priority: the label *)

(** C8. For a priority between 0 and 9 the label the helper reports is that
    of the bucket: none for 0, high for 1 to 3, medium for 4 to 6, low for
    7 to 9. *)
Theorem priority_bucketing (priority : Z) :
  0 <= priority <= 9 ->
  (priority = 0 /\ priorityLabel priority = "なし"
   /\ labelClass (priorityLabel priority) = Some LabelNone)
  \/ (1 <= priority <= 3 /\ priorityLabel priority = "高"
      /\ labelClass (priorityLabel priority) = Some LabelHigh)
  \/ (4 <= priority <= 6 /\ priorityLabel priority = "中"
      /\ labelClass (priorityLabel priority) = Some LabelMedium)
  \/ (7 <= priority <= 9 /\ priorityLabel priority = "低"
      /\ labelClass (priorityLabel priority) = Some LabelLow).
Proof.
  intros Hp. unfold priorityLabel.
  destruct (priority =? 0) eqn:H0; [apply Z.eqb_eq in H0; left; by subst|].
  apply Z.eqb_neq in H0.
  destruct (priority <=? 3) eqn:H3;
    [apply Z.leb_le in H3; right; left; split; [lia|done]|].
  apply Z.leb_gt in H3.
  destruct (priority <=? 6) eqn:H6;
    [apply Z.leb_le in H6; right; right; left; split; [lia|done]|].
  apply Z.leb_gt in H6. right. right. right. split; [lia|done].
Qed.

Example priority_labels :
  labelClass (priorityLabel 7) = Some LabelLow
  /\ labelClass (priorityLabel 0) = Some LabelNone
  /\ labelClass (priorityLabel 4) = Some LabelMedium.
Proof. repeat split. Qed.

(** The label is the one set-priority prints in its success message. *)
Lemma SetPriority_reports_label `{Platform} (st : EKEventStore.t)
    (listName reminder : string) (priority : Z) :
  succeeded (launch (SetPriority_run listName reminder priority) st) ->
  stdout (launch (SetPriority_run listName reminder priority) st).2
  = [OutSuccess (mkSuccessOutput true
       ("リマインダー「" +:+ reminder +:+ "」の優先度を「" +:+ priorityLabel priority
        +:+ "」に設定しました"))].
Proof.
  unfold launch, SetPriority_run. rewrite prelude_run. simpl.
  destruct (EKEventStore.accessGranted st); [|by intros [[=] _]].
  destruct (lookupReminder st listName reminder) as [e|[ref r]]; [by intros [[=] _]|].
  unfold mbind, Cmd_bind. rewrite save_run. simpl.
  by destruct (commitError _ _); simpl; [intros [[=] _]|].
Qed.

(** * Bulk listing *)


(** * The properties on the sample store *)

Lemma set_remind_date_twice_witness :
  succeeded Scenario.remindOnce
  /\ succeeded Scenario.remindTwice
  /\ exists ref r0 r2 ts,
       resolves Sample.store "Work" "Ship report" ref r0
       /\ resolves (store Scenario.remindTwice.2) "Work" "Ship report" ref r2
       /\ @dateFromString Sample.platform "2024-05-01 08:30" = Some ts
       /\ filter (fun a => hasAbsoluteDate a = true) (EKReminder.alarmList r2)
          = [EKAlarm.withAbsoluteDate ts]
       /\ filter (fun a => isTimeAlarm a = true) (EKReminder.alarmList r2)
          = [EKAlarm.withAbsoluteDate ts]
       /\ filter (fun a => hasAbsoluteDate a = false) (EKReminder.alarmList r2)
          = filter (fun a => hasAbsoluteDate a = false) (EKReminder.alarmList r0).
Proof.
  assert (H1 : succeeded Scenario.remindOnce)
    by (split; [vm_compute; reflexivity | eexists; vm_compute; reflexivity]).
  assert (H2 : succeeded Scenario.remindTwice)
    by (split; [vm_compute; reflexivity | eexists; vm_compute; reflexivity]).
  split; [exact H1|]. split; [exact H2|].
  exact (@set_remind_date_twice Sample.platform Sample.store "Work" "Ship report"
           "2024-04-01 10:00" "2024-05-01 08:30" H1 H2).
Defined.

Lemma set_recurrence_twice_witness :
  succeeded Scenario.recurOnce
  /\ succeeded Scenario.recurTwice
  /\ exists ref r0 r2 freq e,
       resolves Sample.store "Work" "Ship report" ref r0
       /\ resolves (store Scenario.recurTwice.2) "Work" "Ship report" ref r2
       /\ @parseFrequency Sample.platform "Weekly" = Some freq
       /\ frequencyString freq = @lowercased Sample.platform "Weekly"
       /\ @endCondition Sample.platform (Some 5) (Some "not a date") e
       /\ EKReminder.ruleList r2 = [EKRecurrenceRule.recurrenceWith freq 2 e].
Proof.
  assert (H1 : succeeded Scenario.recurOnce)
    by (split; [vm_compute; reflexivity | eexists; vm_compute; reflexivity]).
  assert (H2 : succeeded Scenario.recurTwice)
    by (split; [vm_compute; reflexivity | eexists; vm_compute; reflexivity]).
  split; [exact H1|]. split; [exact H2|].
  exact (@set_recurrence_twice Sample.platform Sample.store "Work" "Ship report"
           "daily" "Weekly" 1 2 None (Some 5) None (Some "not a date") H1 H2).
Defined.

Lemma clear_location_keeps_time_alarms_witness :
  succeeded Scenario.cleared
  /\ exists ref r0 r1,
       resolves Sample.store "Work" "Ship report" ref r0
       /\ resolves (store Scenario.cleared.2) "Work" "Ship report" ref r1
       /\ r1 = EKReminder.set_alarms (EKReminder.alarms r1) r0
       /\ EKReminder.alarmList r1
          = filter (fun a => isLocationAlarm a = false) (EKReminder.alarmList r0)
       /\ filter (fun a => isTimeAlarm a = true) (EKReminder.alarmList r1)
          = filter (fun a => isTimeAlarm a = true) (EKReminder.alarmList r0)
       /\ ro_hasLocation (@toOutput Sample.platform r1) = false
       /\ ro_location (@toOutput Sample.platform r1) = None
       /\ (launch (@GetLocation_run Sample.platform "Work" "Ship report")
             (store Scenario.cleared.2)).1 = Return tt
       /\ stdout (launch (@GetLocation_run Sample.platform "Work" "Ship report")
                    (store Scenario.cleared.2)).2
          = [OutSuccess (mkSuccessOutput true "場所ベースの通知は設定されていません")].
Proof.
  assert (H1 : succeeded Scenario.cleared)
    by (split; [vm_compute; reflexivity | eexists; vm_compute; reflexivity]).
  split; [exact H1|].
  exact (@clear_location_keeps_time_alarms Sample.platform Sample.store
           "Work" "Ship report" H1).
Defined.



(** C7, as stated, fails: an unknown frequency on a resolvable reminder makes
    the helper return normally, with a [{success: false}] envelope, instead
    of throwing. *)
Lemma set_recurrence_invalid_frequency_counterexample :
  ~ (forall (P : Platform) (st : EKEventStore.t) (listName reminder frequency : string)
            (interval : Z) (endCount : option Z) (endDate : option string),
       frequency ∉ ["daily"; "weekly"; "monthly"; "yearly"] ->
       exists e,
         (launch (@SetRecurrence_run P listName reminder frequency interval
                    endCount endDate) st).1 = Throw e).
Proof.
  intros Hclaim.
  destruct (Hclaim Sample.platform Sample.store "Work" "Ship report" "hourly" 1 None None)
    as [e He].
  - intros Hin.
    repeat (apply elem_of_cons in Hin as [Hin|Hin]; [discriminate Hin|]).
    by apply elem_of_nil in Hin.
  - vm_compute in He. discriminate He.
Qed.

Lemma set_recurrence_invalid_frequency_witness :
  @parseFrequency Sample.platform "hourly" = None
  /\ Scenario.recurHourly.1 = Return tt
  /\ stdout Scenario.recurHourly.2
     = [OutSuccess (mkSuccessOutput false
          ("無効な頻度: " +:+ "hourly" +:+ " (daily/weekly/monthly/yearly)"))]
  /\ store Scenario.recurHourly.2 = Sample.store.
Proof.
  assert (H1 : @parseFrequency Sample.platform "hourly" = None) by reflexivity.
  pose proof (@set_recurrence_invalid_frequency Sample.platform Sample.store
                "Work" "Ship report" "hourly" 1 None None H1)
    as (Hstore & _ & Hout & _).
  destruct (Hout (1%nat, 1%nat) Sample.shipReport eq_refl) as [Hret Hmsg];
    [vm_compute; reflexivity|].
  split; [exact H1|]. split; [exact Hret|]. split; [exact Hmsg|exact Hstore].
Defined.

Lemma end_count_takes_precedence_witness :
  let o := launch (@SetRecurrence_run Sample.platform "Work" "Ship report" "Weekly" 2
                     (Some 5) (Some "not a date")) Sample.store in
  @dateFromString Sample.platform "not a date" = None
  /\ succeeded o
  /\ exists ref r1,
       resolves (store o.2) "Work" "Ship report" ref r1
       /\ EKReminder.ruleList r1 = [countedRule Weekly 2 5].
Proof.
  intros o.
  pose proof (@end_count_takes_precedence Sample.platform Sample.store
                "Work" "Ship report" "Weekly" 2 5 (Some "not a date") None)
    as (_ & _ & _ & _ & Hrun & Hsaved).
  destruct (Hrun (1%nat, 1%nat) Sample.shipReport Weekly) as [Hs _];
    [reflexivity | vm_compute; reflexivity | reflexivity | reflexivity |].
  split; [reflexivity|]. split; [exact Hs|].
  destruct (Hsaved Hs) as (ref & r0 & r1 & freq & _ & Hr1 & Hf & Hrules).
  injection Hf as <-.
  exists ref, r1. split; [exact Hr1 | exact Hrules].
Defined.

Lemma priority_bucketing_witness :
  0 <= 7 <= 9
  /\ priorityLabel 7 = "低" /\ labelClass (priorityLabel 7) = Some LabelLow.
Proof.
  assert (H1 : 0 <= 7 <= 9) by lia.
  split; [exact H1|].
  destruct (priority_bucketing 7 H1) as [[H0 _]|[[H0 _]|[[H0 _]|[_ Hlow]]]];
    [discriminate H0 | lia | lia | exact Hlow].
Defined.

Lemma update_invalid_date_atomic_witness :
  @dateFromString Sample.platform "tomorrow" = None
  /\ store Scenario.updateBadDate.2 = Sample.store
  /\ Scenario.updateBadDate.1 = Throw (invalidDate "tomorrow").
Proof.
  assert (H1 : @dateFromString Sample.platform "tomorrow" = None) by reflexivity.
  pose proof (@update_invalid_date_atomic Sample.platform Sample.store
                "Work" "Ship report" (Some "Ship it") (Some "body") (Some "more")
                "tomorrow" H1)
    as (Hstore & _ & _ & _ & Herr & _).
  split; [exact H1|]. split; [exact Hstore|].
  apply (Herr (1%nat, 1%nat) Sample.shipReport eq_refl).
  vm_compute. reflexivity.
Defined.

Lemma update_without_fields_witness :
  (launch (@UpdateReminder_run Sample.platform "Nowhere" "Nothing" None None None None)
     (EKEventStore.make false [])).1 = Return tt
  /\ store (launch (@UpdateReminder_run Sample.platform "Nowhere" "Nothing"
                     None None None None)
             (EKEventStore.make false [])).2 = EKEventStore.make false [].
Proof.
  pose proof (@update_without_fields Sample.platform (EKEventStore.make false [])
                "Nowhere" "Nothing" None None None None
                eq_refl eq_refl eq_refl eq_refl)
    as (Hret & _ & _ & Hstore & _).
  split; [exact Hret | exact Hstore].
Defined.

(** * Every sub-command: what a run does to the store and to stdout *)

Lemma reminderAt_lookup (st : EKEventStore.t) (listName reminderName : string)
    (ref : Ref) (r : EKReminder.t) :
  lookupReminder st listName reminderName = Return (ref, r) ->
  reminderAt st ref = Some r.
Proof.
  intros Hl. apply lookupReminder_Return in Hl as (c & rs & Hc & Hrs & Hr).
  apply list_find_Some in Hc as (Hci & _). apply list_find_Some in Hr as (Hri & _).
  unfold reminderAt. by rewrite Hci, Hrs.
Qed.

Lemma reminderAt_write_same (st : EKEventStore.t) (ref : Ref) (r0 r : EKReminder.t) :
  reminderAt st ref = Some r0 -> reminderAt (writeReminder ref r st) ref = Some r.
Proof.
  unfold reminderAt, writeReminder. simpl. rewrite list_lookup_alter.
  rewrite decide_True by done.
  destruct (EKEventStore.calendars st !! ref.1) as [c|]; [|done]. simpl.
  destruct (EKCalendar.reminders c) as [rs|]; [|done]. simpl.
  intros Hr. apply list_lookup_insert_eq. by eapply lookup_lt_Some.
Qed.

Lemma reminderAt_write_other (st : EKEventStore.t) (ref ref' : Ref) (r : EKReminder.t) :
  ref' <> ref -> reminderAt (writeReminder ref r st) ref' = reminderAt st ref'.
Proof.
  intros Hne. unfold reminderAt, writeReminder. simpl.
  destruct (decide (ref.1 = ref'.1)) as [Heq|Hci].
  - rewrite <- Heq, list_lookup_alter, decide_True by done.
    destruct (EKEventStore.calendars st !! ref.1) as [c|]; [|done]. simpl.
    destruct (EKCalendar.reminders c) as [rs|]; [|done]. simpl.
    apply list_lookup_insert_ne. intros Heq2. apply Hne.
    destruct ref, ref'; simpl in *; congruence.
  - by rewrite list_lookup_alter_ne.
Qed.

Lemma titles_write (st : EKEventStore.t) (ref : Ref) (r : EKReminder.t) :
  map EKCalendar.title (EKEventStore.calendars (writeReminder ref r st))
  = map EKCalendar.title (EKEventStore.calendars st).
Proof.
  unfold writeReminder. simpl. generalize (ref.1). 
  induction (EKEventStore.calendars st) as [|c l IH]; intros [|i]; simpl; try done.
  f_equal. apply IH.
Qed.

(** Unfolds a run down to the store's answers and splits on them. *)
Ltac crunch :=
  unfold launch, run, ListLists_run, GetReminders_run, AddReminder_run,
    CompleteReminder_run, UpdateReminder_run, SetPriority_run, SetRemindDate_run,
    GetRecurrence_run, SetRecurrence_run, ClearRecurrence_run, GetLocation_run,
    SetLocation_run, ClearLocation_run, requestAccess, getAllLists, findReminder,
    findList, fetchReminders, save, saveNew, recurrenceEndOf, parseDate,
    outputSuccess, outputJSON;
  unfold mbind, Cmd_bind, mret, Cmd_ret, throw, call, getStore, putStore;
  cbn [store calls stdout fst snd];
  repeat match goal with
         | |- context [match ?x with _ => _ end] =>
             lazymatch x with
             | context [match _ with _ => _ end] => fail
             | _ => destruct x eqn:?; cbn [store calls stdout fst snd]
             end
         end.

Lemma reminderAt_append (st : EKEventStore.t) (ci : nat) (r r' : EKReminder.t)
    (ref' : Ref) :
  reminderAt st ref' = Some r' -> reminderAt (appendReminder ci r st) ref' = Some r'.
Proof.
  unfold reminderAt, appendReminder. simpl.
  destruct (decide (ci = ref'.1)) as [->|Hci].
  - rewrite list_lookup_alter, decide_True by done.
    destruct (EKEventStore.calendars st !! ref'.1) as [c|]; [|done]. simpl.
    destruct (EKCalendar.reminders c) as [rs|]; [|done]. simpl.
    intros Hr. by apply lookup_app_l_Some.
  - by rewrite list_lookup_alter_ne.
Qed.

Lemma titles_append (st : EKEventStore.t) (ci : nat) (r : EKReminder.t) :
  map EKCalendar.title (EKEventStore.calendars (appendReminder ci r st))
  = map EKCalendar.title (EKEventStore.calendars st).
Proof.
  unfold appendReminder. simpl. revert ci.
  induction (EKEventStore.calendars st) as [|c l IH]; intros [|i]; simpl; try done.
  f_equal. apply IH.
Qed.

Section AllCommands.
Context `{Platform}.

(** X1. Whatever the sub-command and the store, a run that throws has
    printed nothing and has left the store as it was, and a run that returns
    has printed exactly one JSON value. *)
Theorem run_prints_one_value_or_throws (c : SubCommand) (st : EKEventStore.t) :
  match (launch (run c) st).1 with
  | Throw _ =>
      stdout (launch (run c) st).2 = [] /\ store (launch (run c) st).2 = st
  | Return _ => exists o, stdout (launch (run c) st).2 = [o]
  end.
Proof.
  destruct c; crunch; try done; by eexists.
Qed.

(** X2. Every sub-command fails closed: when access to the reminders is not
    granted, a run of any sub-command that requests access (all but an update
    without fields) throws [accessDenied] after that single request, without
    reading or changing the store and without printing. *)
Theorem run_fails_closed (c : SubCommand) (st : EKEventStore.t) :
  requestsAccess c = true ->
  EKEventStore.accessGranted st = false ->
  launch (run c) st = (Throw accessDenied, mkWorld st [CallRequestAccess] []).
Proof.
  intros Hreq Hacc.
  destruct c; simpl in Hreq;
    unfold launch, run, ListLists_run, GetReminders_run, AddReminder_run,
      CompleteReminder_run, UpdateReminder_run, SetPriority_run, SetRemindDate_run,
      GetRecurrence_run, SetRecurrence_run, ClearRecurrence_run, GetLocation_run,
      SetLocation_run, ClearLocation_run, requestAccess;
    rewrite ?Hreq;
    unfold mbind, Cmd_bind, mret, Cmd_ret, throw, call, getStore; simpl;
    by rewrite Hacc.
Qed.

(** X3. list-lists, get-reminders, get-recurrence and get-location only read:
    on every store and for every argument the store after the run is the
    store before it and save is never called. *)
Theorem read_only_commands (c : SubCommand) (st : EKEventStore.t) :
  readOnly c = true ->
  store (launch (run c) st).2 = st
  /\ filter (fun k => isSave k = true) (calls (launch (run c) st).2) = [].
Proof.
  intros Hro. destruct c; try discriminate Hro; crunch; by split.
Qed.

(** X4. A run calls save at most once, and the store changes only in a run
    that returns with a [{success: true}] envelope: a run that throws, or
    that answers [{success: false}] or a value, leaves the store as it was. *)
Theorem store_changes_only_on_success (c : SubCommand) (st : EKEventStore.t) :
  (length (filter (fun k => isSave k = true) (calls (launch (run c) st).2)) <= 1)%nat
  /\ (succeeded (launch (run c) st) \/ store (launch (run c) st).2 = st).
Proof.
  destruct c; crunch;
    (split; [simpl; lia|]);
    first [by right | left; split; [done|by eexists]].
Qed.


End AllCommands.

(** * Serialization *)

Lemma locationOfAlarms_flag (alarms : list EKAlarm.t) :
  (locationOfAlarms alarms).2 = notNil (locationOfAlarms alarms).1
  /\ (locationOfAlarms alarms).2
     = bool_decide (Exists (fun a => hasGeoLocation a = true) alarms).
Proof.
  induction alarms as [|a l [IH1 IH2]]; simpl.
  - split; [done|].
    first [done | symmetry; apply bool_decide_eq_false; by intros ?%Exists_nil].
  - unfold hasGeoLocation in *.
    destruct (EKAlarm.structuredLocation a) as [loc|] eqn:Hloc.
    + destruct (EKStructuredLocation.geoLocation loc) as [geo|] eqn:Hgeo; simpl.
      * split; [done|]. symmetry. apply bool_decide_eq_true. left.
        by rewrite Hloc, Hgeo.
      * split; [done|]. rewrite IH2. apply bool_decide_ext. rewrite Exists_cons.
        rewrite Hloc, Hgeo. simpl. split; [by right|by intros [?|?]].
    + split; [done|]. rewrite IH2. apply bool_decide_ext. rewrite Exists_cons.
      rewrite Hloc. split; [by right|by intros [?|?]].
Qed.

Lemma locationOfAlarms_first (pre post : list EKAlarm.t) (a : EKAlarm.t)
    (loc : EKStructuredLocation.t) (geo : CLLocation.t) :
  Forall (fun a => hasGeoLocation a = false) pre ->
  EKAlarm.structuredLocation a = Some loc ->
  EKStructuredLocation.geoLocation loc = Some geo ->
  locationOfAlarms (pre ++ a :: post)
  = (Some (mkLocationInfo (EKStructuredLocation.title loc)
             (CLLocation.latitude geo) (CLLocation.longitude geo)
             (EKStructuredLocation.radius loc)
             (proximityString (EKAlarm.proximity a))), true).
Proof.
  intros Hpre Hloc Hgeo. induction Hpre as [|b pre Hb _ IH]; simpl.
  - by rewrite Hloc, Hgeo.
  - unfold hasGeoLocation in Hb.
    destruct (EKAlarm.structuredLocation b) as [locb|]; [|done].
    by destruct (EKStructuredLocation.geoLocation locb).
Qed.

Section Serialization.
Context `{Platform}.

(** X6. In the JSON of a reminder the flags agree with the nullable fields:
    [hasRecurrence] is true exactly when [recurrence] is not null, and that is
    when the reminder has a rule, the first rule being the one reported;
    [hasLocation] is true exactly when [location] is not null, and that is
    when some alarm has a structured location with a geo location; [flagged]
    is always false and a missing title is the empty string. *)
Theorem toOutput_flags_agree (reminder : EKReminder.t) :
  let out := toOutput reminder in
  ro_hasRecurrence out = notNil (ro_recurrence out)
  /\ ro_recurrence out = ruleToInfo <$> head (EKReminder.ruleList reminder)
  /\ ro_hasLocation out = notNil (ro_location out)
  /\ ro_hasLocation out
     = bool_decide (Exists (fun a => hasGeoLocation a = true)
                      (EKReminder.alarmList reminder))
  /\ ro_flagged out = false
  /\ (EKReminder.title reminder = None -> ro_title out = EmptyString).
Proof.
  unfold toOutput, EKReminder.ruleList, EKReminder.alarmList,
    EKReminder.hasRecurrenceRules.
  destruct reminder as [t n c d p al rl]; simpl.
  destruct al as [l|]; simpl.
  - pose proof (locationOfAlarms_flag l) as [H1 H2].
    destruct (locationOfAlarms l) as [o b]; simpl in *.
    repeat split; try done; try (by destruct rl as [[|rule rest]|]).
    by intros ->.
  - repeat split; try done; try (by destruct rl as [[|rule rest]|]).
    by intros ->.
Qed.

(** X7. The location reported for a reminder is that of its first alarm that
    has a structured location with a geo location: alarms before it that have
    no structured location, or one without a geo location, are passed over,
    and alarms after it are not looked at. *)
Theorem toOutput_first_location (reminder : EKReminder.t)
    (pre post : list EKAlarm.t) (a : EKAlarm.t)
    (loc : EKStructuredLocation.t) (geo : CLLocation.t) :
  EKReminder.alarms reminder = Some (pre ++ a :: post) ->
  Forall (fun b => hasGeoLocation b = false) pre ->
  EKAlarm.structuredLocation a = Some loc ->
  EKStructuredLocation.geoLocation loc = Some geo ->
  ro_location (toOutput reminder)
  = Some (mkLocationInfo (EKStructuredLocation.title loc)
            (CLLocation.latitude geo) (CLLocation.longitude geo)
            (EKStructuredLocation.radius loc)
            (proximityString (EKAlarm.proximity a)))
  /\ ro_hasLocation (toOutput reminder) = true.
Proof.
  intros Hal Hpre Hloc Hgeo. unfold toOutput. rewrite Hal.
  by rewrite (locationOfAlarms_first pre post a loc geo Hpre Hloc Hgeo).
Qed.

End Serialization.

(** * Reading after writing *)

Lemma fetched_values (ci : nat) (g : nat -> nat) (rs : list EKReminder.t) :
  map snd (filter (fun p : Ref * EKReminder.t => EKReminder.isCompleted p.2 = false)
             (imap (fun i r => ((ci, g i), r)) rs))
  = filter (fun r => EKReminder.isCompleted r = false) rs.
Proof.
  revert g. induction rs as [|r rs IH]; intros g; [done|].
  cbn [imap].
  change ((fun (i : nat) (r : EKReminder.t) => (ci, g i, r)) ∘ S)
    with (fun (i : nat) (r : EKReminder.t) => (ci, (g ∘ S) i, r)).
  destruct (EKReminder.isCompleted r) eqn:Hc.
  - rewrite filter_cons_False by (simpl; congruence).
    rewrite (filter_cons_False (fun r => EKReminder.isCompleted r = false))
      by congruence.
    apply IH.
  - rewrite filter_cons_True by done.
    rewrite (filter_cons_True (fun r => EKReminder.isCompleted r = false)) by done.
    simpl. by rewrite IH.
Qed.

Lemma fetched_all (ci : nat) (g : nat -> nat) (rs : list EKReminder.t) :
  map snd (imap (fun i r => ((ci, g i), r)) rs) = rs.
Proof.
  revert g. induction rs as [|r rs IH]; intros g; [done|].
  cbn [imap]. simpl. f_equal. apply (IH (g ∘ S)).
Qed.

Section ReadAfterWrite.
Context `{Platform}.

Lemma toOutput_recurrence (r : EKReminder.t) :
  ro_recurrence (toOutput r) = ruleToInfo <$> head (EKReminder.ruleList r).
Proof.
  unfold toOutput, EKReminder.ruleList, EKReminder.hasRecurrenceRules.
  destruct (match EKReminder.alarms r with
            | Some alarms => locationOfAlarms alarms
            | None => (None, false)
            end) as [o b]. simpl.
  by destruct (EKReminder.recurrenceRules r) as [[|rule rest]|].
Qed.

Lemma toOutput_location (r : EKReminder.t) :
  ro_location (toOutput r) = (locationOfAlarms (EKReminder.alarmList r)).1.
Proof.
  unfold toOutput, EKReminder.alarmList.
  destruct (EKReminder.alarms r) as [l|]; simpl; [|done].
  by destruct (locationOfAlarms l).
Qed.

(** A run that succeeded was granted access. *)
Lemma succeeded_access (c : SubCommand) (st : EKEventStore.t) :
  requestsAccess c = true ->
  succeeded (launch (run c) st) ->
  EKEventStore.accessGranted st = true.
Proof.
  intros Hreq [Hret _]. destruct (EKEventStore.accessGranted st) eqn:Hacc; [done|].
  revert Hret.
  destruct c; simpl in Hreq;
    unfold launch, run, ListLists_run, GetReminders_run, AddReminder_run,
      CompleteReminder_run, UpdateReminder_run, SetPriority_run, SetRemindDate_run,
      GetRecurrence_run, SetRecurrence_run, ClearRecurrence_run, GetLocation_run,
      SetLocation_run, ClearLocation_run, requestAccess;
    rewrite ?Hreq;
    unfold mbind, Cmd_bind, mret, Cmd_ret, throw, call, getStore; simpl;
    by rewrite Hacc.
Qed.

(** What a successful run of a sub-command of the shape resolve, change the
    reminder by [f], save, report did. *)
Lemma mutate_succeeded (f : EKReminder.t -> EKReminder.t) (msg : string)
    (st : EKEventStore.t) (listName reminder : string) :
  let o := (requestAccess;;
            target ← findReminder listName reminder;
            save (target.1, f target.2);;
            outputSuccess true msg) (mkWorld st [] []) in
  succeeded o ->
  exists ref r,
    EKEventStore.accessGranted st = true
    /\ lookupReminder st listName reminder = Return (ref, r)
    /\ store o.2 = writeReminder ref (f r) st.
Proof.
  intros o. subst o. rewrite prelude_run. simpl.
  destruct (EKEventStore.accessGranted st); [|by intros [[=] _]].
  destruct (lookupReminder st listName reminder) as [e|[ref r]]; [by intros [[=] _]|].
  unfold mbind, Cmd_bind. rewrite save_run. simpl.
  destruct (commitError _ _); simpl; [by intros [[=] _]|].
  intros _. by exists ref, r.
Qed.

(** What a run of a sub-command of the shape resolve, project, print does. *)
Lemma project_run (k : ReminderOutput -> Output) (st : EKEventStore.t)
    (listName reminder : string) (ref : Ref) (r : EKReminder.t) :
  EKEventStore.accessGranted st = true ->
  lookupReminder st listName reminder = Return (ref, r) ->
  (requestAccess;;
   target ← findReminder listName reminder;
   outputJSON (k (toOutput target.2))) (mkWorld st [] [])
  = (Return tt,
     mkWorld st (CallRequestAccess :: lookupCalls st listName) [k (toOutput r)]).
Proof.
  intros Hacc Hl. rewrite prelude_run. simpl. by rewrite Hacc, Hl.
Qed.

Lemma GetRecurrence_launch (st : EKEventStore.t) (listName reminder : string)
    (ref : Ref) (r : EKReminder.t) :
  EKEventStore.accessGranted st = true ->
  lookupReminder st listName reminder = Return (ref, r) ->
  launch (GetRecurrence_run listName reminder) st
  = (Return tt,
     mkWorld st (CallRequestAccess :: lookupCalls st listName)
       [match ro_recurrence (toOutput r) with
        | Some recurrence => OutRecurrence recurrence
        | None => OutSuccess (mkSuccessOutput true "繰り返しルールは設定されていません")
        end]).
Proof.
  intros Hacc Hl. unfold launch, GetRecurrence_run. rewrite prelude_run. simpl.
  rewrite Hacc, Hl. simpl. by destruct (ro_recurrence (toOutput r)).
Qed.

Lemma GetLocation_launch (st : EKEventStore.t) (listName reminder : string)
    (ref : Ref) (r : EKReminder.t) :
  EKEventStore.accessGranted st = true ->
  lookupReminder st listName reminder = Return (ref, r) ->
  launch (GetLocation_run listName reminder) st
  = (Return tt,
     mkWorld st (CallRequestAccess :: lookupCalls st listName)
       [match ro_location (toOutput r) with
        | Some location => OutLocation location
        | None => OutSuccess (mkSuccessOutput true "場所ベースの通知は設定されていません")
        end]).
Proof.
  intros Hacc Hl. unfold launch, GetLocation_run. rewrite prelude_run. simpl.
  rewrite Hacc, Hl. simpl. by destruct (ro_location (toOutput r)).
Qed.

(** X8. get-reminders prints the reminders of the first list whose name is
    the requested one, in the store's order, each through [toOutput]:
    all of them with --include-completed, the ones not completed without
    it.  This is for listings the encoder accepts: every location reported
    has finite coordinates and radius. *)
Theorem get_reminders_output (st : EKEventStore.t) (listName : string)
    (includeCompleted : bool) (ci : nat) (c : EKCalendar.t)
    (rs : list EKReminder.t) :
  EKEventStore.accessGranted st = true ->
  EKEventStore.calendars st !! ci = Some c ->
  EKCalendar.title c = listName ->
  (forall j c', EKEventStore.calendars st !! j = Some c' -> (j < ci)%nat ->
                EKCalendar.title c' <> listName) ->
  EKCalendar.reminders c = Some rs ->
  let listed :=
    if includeCompleted then rs
    else filter (fun r => EKReminder.isCompleted r = false) rs in
  Forall (fun r => encodableReminder (toOutput r) = true) listed ->
  launch (GetReminders_run listName includeCompleted) st
  = (Return tt,
     mkWorld st [CallRequestAccess; CallCalendars; CallFetchReminders ci]
       [OutReminders (map toOutput listed)]).
Proof.
  intros Hacc Hci Ht Hfirst Hrs listed _. subst listed.
  assert (Hfind : list_find (fun c => EKCalendar.title c = listName)
                    (EKEventStore.calendars st) = Some (ci, c))
    by (by apply list_find_Some).
  unfold launch, GetReminders_run, requestAccess, findList, fetchReminders.
  unfold mbind, Cmd_bind, call, getStore, mret, Cmd_ret, throw, outputJSON. simpl.
  rewrite Hacc. simpl. rewrite Hfind. simpl. rewrite Hci. simpl. rewrite Hrs. simpl.
  do 4 f_equal. rewrite <- (map_map snd toOutput). f_equal.
  destruct includeCompleted.
  - apply (fetched_all ci id).
  - apply (fetched_values ci id).
Qed.

End ReadAfterWrite.

(** * The mutators, one by one *)

Lemma parseProximity_Some `{Platform} (proximity : string) (p : EKAlarmProximity) :
  parseProximity proximity = Some p ->
  proximityString p = lowercased proximity /\ p <> ProximityNone.
Proof.
  unfold parseProximity.
  repeat match goal with
         | |- context [String.eqb ?a ?b] =>
             let E := fresh "E" in
             destruct (String.eqb a b) eqn:E;
             [apply String.eqb_eq in E; by intros [= <-] | clear E]
         end.
  done.
Qed.

Lemma filter_location_new (loc : EKStructuredLocation.t) (p : EKAlarmProximity) :
  filter (fun a => isLocationAlarm a = true) [EKAlarm.withLocation loc p]
  = [EKAlarm.withLocation loc p]
  /\ filter (fun a => isTimeAlarm a = true) [EKAlarm.withLocation loc p] = [].
Proof. split; reflexivity. Qed.

Lemma filter_time_of_kept (l : list EKAlarm.t) :
  filter (fun a => isTimeAlarm a = true)
    (filter (fun a => hasStructuredLocation a = false) l)
  = filter (fun a => isTimeAlarm a = true) l.
Proof.
  induction l as [|a l IH]; [done|]. unfold isTimeAlarm in *.
  destruct (hasStructuredLocation a) eqn:Hs.
  - rewrite (filter_cons_False (fun a => hasStructuredLocation a = false)) by congruence.
    rewrite IH. rewrite filter_cons_False; [done|].
    rewrite Hs. by destruct (hasAbsoluteDate a).
  - rewrite (filter_cons_True (fun a => hasStructuredLocation a = false)) by done.
    destruct (hasAbsoluteDate a) eqn:Ha.
    + rewrite !(filter_cons_True (fun a => _ && _ = true)) by (by rewrite Ha, Hs).
      by rewrite IH.
    + rewrite !(filter_cons_False (fun a => _ && _ = true)) by (by rewrite Ha, Hs).
      by rewrite IH.
Qed.

Section Effects.
Context `{Platform}.

(** X9. After a successful set-recurrence, get-recurrence on the same
    reminder prints the rule just set and changes nothing: the frequency in
    lower case, the interval, an end count only when one was given and is
    positive, an end date only when one was given without a count, and no
    days of the week. *)
Theorem set_then_get_recurrence (st : EKEventStore.t)
    (listName reminder frequency : string) (interval : Z)
    (endCount : option Z) (endDate : option string) :
  let o1 := launch (SetRecurrence_run listName reminder frequency interval
                      endCount endDate) st in
  let o2 := launch (GetRecurrence_run listName reminder) (store o1.2) in
  succeeded o1 ->
  o2.1 = Return tt
  /\ store o2.2 = store o1.2
  /\ stdout o2.2
     = [OutRecurrence
          (mkRecurrenceInfo (lowercased frequency) interval
             (match endCount, endDate with
              | None, Some s => stringFromDate <$> dateFromString s
              | _, _ => None
              end)
             (match endCount with
              | Some n => if 0 <? n then Some n else None
              | None => None
              end)
             None)].
Proof.
  intros o1 o2 H1. subst o1 o2.
  pose proof (succeeded_access (SetRecurrence listName reminder frequency interval
                                  endCount endDate) st eq_refl H1) as Hacc.
  apply SetRecurrence_succeeded in H1 as (ref & r0 & freq & e & Hl & Hf & He & Hst).
  rewrite Hst. clear Hst.
  erewrite GetRecurrence_launch; [|exact Hacc|].
  2:{ eapply lookup_after_write; [exact Hl|].
      simpl. by rewrite title_removeAllRecurrenceRules. }
  simpl. split; [done|]. split; [done|].
  rewrite toOutput_recurrence. unfold addRecurrenceRule at 1.
  unfold EKReminder.ruleList at 1. simpl.
  rewrite ruleList_removeAllRecurrenceRules. simpl.
  unfold ruleToInfo. simpl. rewrite (parseFrequency_Some _ _ Hf).
  unfold endCondition in He.
  destruct endCount as [n|]; [|destruct endDate as [s|]].
  - subst e. simpl. by destruct (0 <? n).
  - destruct He as (d & Hd & ->). simpl. by rewrite Hd.
  - by subst e.
Qed.

(** X10. A successful clear-recurrence leaves the reminder without any rule
    and with everything else as it was (its alarms, so its location too); a
    get-recurrence that follows prints the "no recurrence rule" envelope. *)
Theorem clear_recurrence_effect (st : EKEventStore.t) (listName reminder : string) :
  let o := launch (ClearRecurrence_run listName reminder) st in
  succeeded o ->
  exists ref r0 r1,
    resolves st listName reminder ref r0
    /\ resolves (store o.2) listName reminder ref r1
    /\ r1 = EKReminder.set_recurrenceRules (EKReminder.recurrenceRules r1) r0
    /\ EKReminder.ruleList r1 = []
    /\ ro_hasRecurrence (toOutput r1) = false
    /\ ro_location (toOutput r1) = ro_location (toOutput r0)
    /\ launch (GetRecurrence_run listName reminder) (store o.2)
       = (Return tt,
          mkWorld (store o.2) (CallRequestAccess :: lookupCalls st listName)
            [OutSuccess (mkSuccessOutput true "繰り返しルールは設定されていません")]).
Proof.
  intros o Ho. subst o. unfold launch in *.
  apply mutate_succeeded in Ho as (ref & r0 & Hacc & Hl & Hst).
  unfold ClearRecurrence_run. rewrite Hst. clear Hst.
  assert (Hl1 : lookupReminder (writeReminder ref (removeAllRecurrenceRules r0) st)
                  listName reminder
                = Return (ref, removeAllRecurrenceRules r0)).
  { eapply lookup_after_write; [exact Hl|]. by rewrite title_removeAllRecurrenceRules. }
  assert (Hrec : ro_recurrence (toOutput (removeAllRecurrenceRules r0)) = None)
    by (by rewrite toOutput_recurrence, ruleList_removeAllRecurrenceRules).
  exists ref, r0, (removeAllRecurrenceRules r0).
  split; [by apply resolves_lookup|]. split; [by apply resolves_lookup|].
  split; [by rewrite removeAllRecurrenceRules_rules|].
  split; [apply ruleList_removeAllRecurrenceRules|].
  split.
  { rewrite removeAllRecurrenceRules_rules. unfold toOutput. simpl.
    destruct (match EKReminder.alarms r0 with
              | Some alarms => locationOfAlarms alarms
              | None => (None, false)
              end) as [o b]. simpl.
    by destruct (EKReminder.recurrenceRules r0) as [[|x l]|]. }
  split.
  { rewrite !toOutput_location. by rewrite removeAllRecurrenceRules_rules. }
  fold (launch (GetRecurrence_run listName reminder)
          (writeReminder ref (removeAllRecurrenceRules r0) st)).
  erewrite GetRecurrence_launch; [|exact Hacc|exact Hl1].
  rewrite Hrec. do 3 f_equal.
  unfold lookupCalls. simpl.
  apply lookupReminder_Return in Hl as (c & rs & Hc & Hrs & Hr).
  apply lookupReminder_Return in Hl1 as (c' & rs' & Hc' & _).
  simpl in Hc'. by rewrite Hc, Hc'.
Qed.

(** What a successful set-location did. *)
Lemma SetLocation_succeeded (st : EKEventStore.t) (listName reminder title : string)
    (latitude longitude radius : Double) (proximity : string) :
  succeeded (launch (SetLocation_run listName reminder title latitude longitude
                       radius proximity) st) ->
  exists ref r p,
    lookupReminder st listName reminder = Return (ref, r)
    /\ parseProximity proximity = Some p
    /\ store (launch (SetLocation_run listName reminder title latitude longitude
                        radius proximity) st).2
       = writeReminder ref
           (addAlarm
              (EKAlarm.withLocation
                 (EKStructuredLocation.make (Some title)
                    (Some (CLLocation.make latitude longitude)) radius) p)
              (removeAlarmsWhere hasStructuredLocation r))
           st.
Proof.
  unfold launch, SetLocation_run. rewrite prelude_run. simpl.
  destruct (EKEventStore.accessGranted st); [|by intros [[=] _]].
  destruct (lookupReminder st listName reminder) as [e|[ref r]]; [by intros [[=] _]|].
  destruct (parseProximity proximity) as [p|]; [|by intros [_ [msg [=]]]].
  unfold mbind, Cmd_bind. rewrite save_run. simpl.
  destruct (commitError _ _); simpl; [by intros [[=] _]|].
  intros _. by exists ref, r, p.
Qed.

(** X11. After a successful set-location the reminder has exactly one
    location alarm, built from the title, coordinates, radius and proximity of
    the call, whatever location alarms it had; its alarms without a structured
    location, so its time alarms, are kept; and a get-location that follows
    prints that location with the proximity in lower case, provided the
    coordinates and the radius are finite numbers, which is what the encoder
    accepts.  The radius is stored as given. *)
Theorem set_location_effect (st : EKEventStore.t) (listName reminder title : string)
    (latitude longitude radius : Double) (proximity : string) :
  let o := launch (SetLocation_run listName reminder title latitude longitude
                     radius proximity) st in
  succeeded o ->
  exists ref r0 r1 p,
    resolves st listName reminder ref r0
    /\ resolves (store o.2) listName reminder ref r1
    /\ parseProximity proximity = Some p
    /\ EKReminder.alarmList r1
       = filter (fun a => isLocationAlarm a = false) (EKReminder.alarmList r0)
         ++ [EKAlarm.withLocation
               (EKStructuredLocation.make (Some title)
                  (Some (CLLocation.make latitude longitude)) radius) p]
    /\ filter (fun a => isLocationAlarm a = true) (EKReminder.alarmList r1)
       = [EKAlarm.withLocation
            (EKStructuredLocation.make (Some title)
               (Some (CLLocation.make latitude longitude)) radius) p]
    /\ filter (fun a => isTimeAlarm a = true) (EKReminder.alarmList r1)
       = filter (fun a => isTimeAlarm a = true) (EKReminder.alarmList r0)
    /\ ro_location (toOutput r1)
       = Some (mkLocationInfo (Some title) latitude longitude radius
                 (lowercased proximity))
    /\ (isFiniteDouble latitude = true -> isFiniteDouble longitude = true ->
        isFiniteDouble radius = true ->
        (launch (GetLocation_run listName reminder) (store o.2)).1 = Return tt
        /\ stdout (launch (GetLocation_run listName reminder) (store o.2)).2
           = [OutLocation (mkLocationInfo (Some title) latitude longitude radius
                             (lowercased proximity))]).
Proof.
  intros o Ho. subst o.
  pose proof (succeeded_access (SetLocation listName reminder title latitude longitude
                                  radius proximity) st eq_refl Ho) as Hacc.
  apply SetLocation_succeeded in Ho as (ref & r0 & p & Hl & Hp & Hst).
  rewrite Hst. clear Hst.
  set (loc := EKStructuredLocation.make (Some title)
                (Some (CLLocation.make latitude longitude)) radius).
  set (r1 := addAlarm (EKAlarm.withLocation loc p)
               (removeAlarmsWhere hasStructuredLocation r0)).
  assert (Hl1 : lookupReminder (writeReminder ref r1 st) listName reminder
                = Return (ref, r1)).
  { eapply lookup_after_write; [exact Hl|].
    subst r1. simpl. by rewrite title_removeAlarmsWhere. }
  assert (Hlist : EKReminder.alarmList r1
                  = filter (fun a => isLocationAlarm a = false) (EKReminder.alarmList r0)
                    ++ [EKAlarm.withLocation loc p]).
  { subst r1. by rewrite alarmList_addAlarm, alarmList_removeAlarmsWhere. }
  destruct (filter_location_new loc p) as [Hnew1 Hnew2].
  exists ref, r0, r1, p.
  split; [by apply resolves_lookup|]. split; [by apply resolves_lookup|].
  split; [done|]. split; [done|].
  split.
  { rewrite Hlist, filter_app, Hnew1. unfold isLocationAlarm.
    by rewrite filter_filter_neg. }
  split.
  { rewrite Hlist, filter_app, Hnew2, app_nil_r. unfold isLocationAlarm.
    apply filter_time_of_kept. }
  assert (Hloc : ro_location (toOutput r1)
                 = Some (mkLocationInfo (Some title) latitude longitude radius
                           (lowercased proximity))).
  { rewrite toOutput_location, Hlist.
    rewrite (locationOfAlarms_first _ [] (EKAlarm.withLocation loc p) loc
               (CLLocation.make latitude longitude)); try done.
    - simpl. by destruct (parseProximity_Some _ _ Hp) as [-> _].
    - apply Forall_forall. intros a Ha. apply list_elem_of_filter in Ha as [Ha _].
      unfold isLocationAlarm, hasStructuredLocation in Ha. unfold hasGeoLocation.
      destruct (EKAlarm.structuredLocation a); [|done].
      apply bool_decide_eq_false in Ha. by destruct Ha. }
  split; [exact Hloc|].
  intros _ _ _.
  erewrite GetLocation_launch; [|exact Hacc|exact Hl1].
  simpl. split; [done|]. by rewrite Hloc.
Qed.

(** X12. A set-location call whose proximity, lowercased, is neither enter
    nor leave never changes the store and never calls save; when access is
    granted and the reminder resolves it returns normally with the
    [{success: false}] envelope that names the proximity. *)
Theorem set_location_invalid_proximity (st : EKEventStore.t)
    (listName reminder title : string) (latitude longitude radius : Double)
    (proximity : string) :
  parseProximity proximity = None ->
  let o := launch (SetLocation_run listName reminder title latitude longitude
                     radius proximity) st in
  store o.2 = st
  /\ filter (fun k => isSave k = true) (calls o.2) = []
  /\ (forall ref r,
        EKEventStore.accessGranted st = true ->
        resolves st listName reminder ref r ->
        o.1 = Return tt
        /\ stdout o.2
           = [OutSuccess (mkSuccessOutput false
                ("無効なトリガー条件: " +:+ proximity +:+ " (enter/leave)"))]).
Proof.
  intros Hp o. subst o.
  unfold launch, SetLocation_run. rewrite prelude_run. simpl.
  destruct (EKEventStore.accessGranted st) eqn:Hacc; [|by repeat split].
  unfold lookupCalls.
  destruct (lookupReminder st listName reminder) as [e0|[ref0 r0]] eqn:Hl;
    rewrite ?Hp; simpl.
  - split; [done|]. split; [by destruct (list_find _ _) as [[ci c]|]|].
    intros ref r _ Hr. apply resolves_lookup in Hr. congruence.
  - split; [done|]. split; [by destruct (list_find _ _) as [[ci c]|]|]. done.
Qed.

(** X13. A successful set-priority stores the given integer as the priority
    of the resolved reminder, whatever its value (no range is enforced), and
    changes nothing else of it; the JSON of the reminder then carries that
    priority. *)
Theorem set_priority_effect (st : EKEventStore.t) (listName reminder : string)
    (priority : Z) :
  let o := launch (SetPriority_run listName reminder priority) st in
  succeeded o ->
  exists ref r0,
    resolves st listName reminder ref r0
    /\ resolves (store o.2) listName reminder ref
         (EKReminder.set_priority priority r0)
    /\ ro_priority (toOutput (EKReminder.set_priority priority r0)) = priority.
Proof.
  intros o Ho. subst o. unfold launch in *.
  apply (mutate_succeeded (EKReminder.set_priority priority)) in Ho
    as (ref & r0 & Hacc & Hl & Hst).
  unfold SetPriority_run. rewrite Hst. clear Hst.
  exists ref, r0. split; [by apply resolves_lookup|].
  split.
  - apply resolves_lookup. by eapply lookup_after_write.
  - unfold toOutput. simpl.
    by destruct (match EKReminder.alarms r0 with
                 | Some alarms => locationOfAlarms alarms
                 | None => (None, false)
                 end).
Qed.

End Effects.

(** * complete, update, add *)

Lemma resolves_title (st : EKEventStore.t) (listName reminderName : string)
    (ref : Ref) (r : EKReminder.t) :
  lookupReminder st listName reminderName = Return (ref, r) ->
  EKReminder.title r = Some reminderName.
Proof.
  intros Hl. apply lookupReminder_Return in Hl as (c & rs & _ & _ & Hr).
  by apply list_find_Some in Hr as (_ & ? & _).
Qed.

Lemma fetched_elem (ci : nat) (rs : list EKReminder.t) (ref : Ref) (r : EKReminder.t) :
  (ref, r) ∈ imap (fun i r => ((ci, i), r)) rs <-> ref.1 = ci /\ rs !! ref.2 = Some r.
Proof.
  rewrite elem_of_lookup_imap. split.
  - by intros (i & y & [= -> ->] & Hi).
  - intros [<- Hr]. exists ref.2, r. by destruct ref.
Qed.

Section CompleteUpdateAdd.
Context `{Platform}.

(** X14. A successful complete marks the resolved reminder completed and
    changes nothing else of it.  The reminder still resolves by name, and a
    fetch of its list returns it when completed reminders are included and
    leaves it out when they are not. *)
Theorem complete_effect (st : EKEventStore.t) (listName reminder : string) :
  let o := launch (CompleteReminder_run listName reminder) st in
  succeeded o ->
  exists ref r0 r1,
    resolves st listName reminder ref r0
    /\ resolves (store o.2) listName reminder ref r1
    /\ r1 = EKReminder.make (EKReminder.title r0) (EKReminder.notes r0) true
              (EKReminder.dueDateComponents r0) (EKReminder.priority r0)
              (EKReminder.alarms r0) (EKReminder.recurrenceRules r0)
    /\ (forall c fetched,
          (fetchReminders (ref.1, c) true (mkWorld (store o.2) [] [])).1
            = Return fetched ->
          (ref, r1) ∈ fetched)
    /\ (forall c fetched r,
          (fetchReminders (ref.1, c) false (mkWorld (store o.2) [] [])).1
            = Return fetched ->
          (ref, r) ∉ fetched).
Proof.
  intros o Ho. subst o. unfold launch in *.
  apply (mutate_succeeded
           (fun r => EKReminder.make (EKReminder.title r) (EKReminder.notes r) true
                       (EKReminder.dueDateComponents r) (EKReminder.priority r)
                       (EKReminder.alarms r) (EKReminder.recurrenceRules r))) in Ho
    as (ref & r0 & Hacc & Hl & Hst).
  unfold CompleteReminder_run. rewrite Hst. clear Hst.
  set (r1 := EKReminder.make (EKReminder.title r0) (EKReminder.notes r0) true
               (EKReminder.dueDateComponents r0) (EKReminder.priority r0)
               (EKReminder.alarms r0) (EKReminder.recurrenceRules r0)).
  pose proof (reminderAt_write_same st ref r0 r1 (reminderAt_lookup _ _ _ _ _ Hl))
    as Hat.
  exists ref, r0, r1.
  split; [by apply resolves_lookup|].
  split; [apply resolves_lookup; by eapply lookup_after_write|].
  split; [done|].
  unfold reminderAt in Hat. unfold fetchReminders.
  unfold mbind, Cmd_bind, call, getStore, mret, Cmd_ret, throw. simpl in *.
  destruct (_ !! ref.1) as [c1|]; [|done]. simpl.
  destruct (EKCalendar.reminders c1) as [rs|]; [|done]. simpl.
  split.
  - intros _ fetched [= <-]. by apply fetched_elem.
  - intros _ fetched r [= <-] Hin.
    apply list_elem_of_filter in Hin as [Hc Hin]. simpl in Hc.
    apply fetched_elem in Hin as [_ Hr]. rewrite Hat in Hr.
    injection Hr as <-. done.
Qed.

(** What a successful update did. *)
Lemma UpdateReminder_succeeded (st : EKEventStore.t) (listName reminder : string)
    (newName newBody appendBody newDueDate : option string) :
  succeeded (launch (UpdateReminder_run listName reminder newName newBody
                       appendBody newDueDate) st) ->
  exists ref r0 r1,
    lookupReminder st listName reminder = Return (ref, r0)
    /\ store (launch (UpdateReminder_run listName reminder newName newBody
                        appendBody newDueDate) st).2
       = writeReminder ref r1 st
    /\ EKReminder.title r1
       = match newName with Some name => Some name | None => EKReminder.title r0 end
    /\ EKReminder.notes r1
       = (let base := match newBody with
                      | Some body => Some body
                      | None => EKReminder.notes r0
                      end in
          match appendBody with
          | Some append => Some (orElse base EmptyString +:+ LF +:+ append)
          | None => base
          end)
    /\ EKReminder.dueDateComponents r1
       = match newDueDate with
         | Some s => dateToComponents <$> dateFromString s
         | None => EKReminder.dueDateComponents r0
         end
    /\ EKReminder.isCompleted r1 = EKReminder.isCompleted r0
    /\ EKReminder.priority r1 = EKReminder.priority r0
    /\ EKReminder.alarms r1 = EKReminder.alarms r0
    /\ EKReminder.recurrenceRules r1 = EKReminder.recurrenceRules r0.
Proof.
  unfold launch, UpdateReminder_run.
  destruct (notNil newName || notNil newBody || notNil appendBody
            || notNil newDueDate) eqn:Hany; [|by intros [_ [msg [=]]]].
  rewrite prelude_run. simpl.
  destruct (EKEventStore.accessGranted st); [|by intros [[=] _]].
  destruct (lookupReminder st listName reminder) as [e|[ref r]]; [by intros [[=] _]|].
  unfold parseDate.
  destruct newDueDate as [s|]; [destruct (dateFromString s) as [d|] eqn:Hd|];
    unfold mbind, Cmd_bind, throw, mret, Cmd_ret; simpl;
    try (by intros [[=] _]);
    rewrite save_run; simpl;
    (destruct (commitError _ _); simpl; [by intros [[=] _]|]);
    intros _; eexists ref, r, _; (split; [done|]); (split; [reflexivity|]);
    destruct newName, newBody, appendBody; simpl; rewrite ?Hd; by repeat split.
Qed.

(** X15. A successful update commits, on the resolved reminder, the new name
    when one is given, the notes obtained by replacing them by the new body
    when one is given and then appending a line feed and the appended text
    when one is given (to the empty string when there are no notes), and the
    components of the parsed due date when one is given; completion,
    priority, alarms and rules are kept. *)
Theorem update_effect (st : EKEventStore.t) (listName reminder : string)
    (newName newBody appendBody newDueDate : option string) :
  let o := launch (UpdateReminder_run listName reminder newName newBody
                     appendBody newDueDate) st in
  succeeded o ->
  exists ref r0 r1,
    resolves st listName reminder ref r0
    /\ reminderAt (store o.2) ref = Some r1
    /\ EKReminder.title r1
       = match newName with Some name => Some name | None => EKReminder.title r0 end
    /\ EKReminder.notes r1
       = (let base := match newBody with
                      | Some body => Some body
                      | None => EKReminder.notes r0
                      end in
          match appendBody with
          | Some append => Some (orElse base EmptyString +:+ LF +:+ append)
          | None => base
          end)
    /\ EKReminder.dueDateComponents r1
       = match newDueDate with
         | Some s => dateToComponents <$> dateFromString s
         | None => EKReminder.dueDateComponents r0
         end
    /\ EKReminder.isCompleted r1 = EKReminder.isCompleted r0
    /\ EKReminder.priority r1 = EKReminder.priority r0
    /\ EKReminder.alarms r1 = EKReminder.alarms r0
    /\ EKReminder.recurrenceRules r1 = EKReminder.recurrenceRules r0.
Proof.
  intros o Ho. subst o.
  apply UpdateReminder_succeeded in Ho as (ref & r0 & r1 & Hl & Hst & Hfields).
  rewrite Hst. exists ref, r0, r1.
  split; [by apply resolves_lookup|].
  split; [|exact Hfields].
  eapply reminderAt_write_same. by eapply reminderAt_lookup.
Qed.

(** X16. After a successful update that gives the reminder a new name
    different from the one it was addressed by, the old name no longer
    resolves to that reminder: it resolves to another reminder of the list
    or to none. *)
Theorem update_rename_releases_name (st : EKEventStore.t)
    (listName reminder name : string) (newBody appendBody newDueDate : option string) :
  let o := launch (UpdateReminder_run listName reminder (Some name) newBody
                     appendBody newDueDate) st in
  succeeded o ->
  name <> reminder ->
  exists ref r0,
    resolves st listName reminder ref r0
    /\ forall ref' r', resolves (store o.2) listName reminder ref' r' -> ref' <> ref.
Proof.
  intros o Ho Hne. subst o.
  apply UpdateReminder_succeeded in Ho
    as (ref & r0 & r1 & Hl & Hst & Htitle & _).
  rewrite Hst. exists ref, r0. split; [by apply resolves_lookup|].
  intros ref' r' Hr -> .
  apply resolves_lookup in Hr.
  pose proof (resolves_title _ _ _ _ _ Hr) as Ht'.
  apply reminderAt_lookup in Hr.
  rewrite (reminderAt_write_same st ref r0 r1) in Hr
    by (by eapply reminderAt_lookup).
  injection Hr as <-. congruence.
Qed.

(** X17. Appending is not idempotent: two successive successful updates that
    only append leave the notes the reminder had (the empty string when it
    had none), then a line feed and the first text, then a line feed and the
    second text. *)
Theorem append_body_twice (st : EKEventStore.t) (listName reminder : string)
    (append1 append2 : string) :
  let o1 := launch (UpdateReminder_run listName reminder None None
                      (Some append1) None) st in
  let o2 := launch (UpdateReminder_run listName reminder None None
                      (Some append2) None) (store o1.2) in
  succeeded o1 -> succeeded o2 ->
  exists ref r0 r2,
    resolves st listName reminder ref r0
    /\ resolves (store o2.2) listName reminder ref r2
    /\ EKReminder.notes r2
       = Some ((orElse (EKReminder.notes r0) EmptyString +:+ LF +:+ append1)
               +:+ LF +:+ append2).
Proof.
  intros o1 o2 H1 H2. subst o1 o2.
  apply UpdateReminder_succeeded in H1
    as (ref & r0 & r1 & Hl & Hst1 & Ht1 & Hn1 & _).
  pose proof H2 as H2'.
  apply UpdateReminder_succeeded in H2'
    as (ref' & r1' & r2 & Hl2 & Hst2 & Ht2 & Hn2 & _).
  rewrite Hst1 in Hl2.
  erewrite lookup_after_write in Hl2; [|exact Hl|exact Ht1].
  injection Hl2 as <- <-.
  exists ref, r0, r2.
  split; [by apply resolves_lookup|].
  split.
  - apply resolves_lookup. rewrite Hst2, Hst1.
    eapply lookup_after_write; [by eapply lookup_after_write|]. congruence.
  - simpl in *. by rewrite Hn2, Hn1.
Qed.

End CompleteUpdateAdd.

(** * add *)

Lemma find_calendar_append (st : EKEventStore.t) (listName : string)
    (ci ci' : nat) (c : EKCalendar.t) (r : EKReminder.t) :
  list_find (fun c => EKCalendar.title c = listName) (EKEventStore.calendars st)
    = Some (ci', c) ->
  list_find (fun c => EKCalendar.title c = listName)
    (EKEventStore.calendars (appendReminder ci r st))
  = Some (ci', if decide (ci = ci')
               then EKCalendar.make (EKCalendar.title c)
                      ((fun rs => rs ++ [r]) <$> EKCalendar.reminders c)
               else c).
Proof.
  intros Hc. apply list_find_Some in Hc as (Hci & Hct & Hfirst).
  unfold appendReminder. simpl. apply list_find_Some. split; [|split].
  - destruct (decide (ci = ci')) as [->|Hne].
    + rewrite list_lookup_alter, decide_True by done. by rewrite Hci.
    + by rewrite list_lookup_alter_ne.
  - by destruct (decide (ci = ci')).
  - intros j y Hj Hlt. rewrite list_lookup_alter in Hj.
    destruct (decide (ci = j)) as [->|]; [|by eauto].
    destruct (EKEventStore.calendars st !! j) as [cj|] eqn:Hcj; [|done].
    injection Hj as <-. simpl. by eapply Hfirst.
Qed.

Lemma lookup_after_append (st : EKEventStore.t) (listName reminderName : string)
    (ci : nat) (r : EKReminder.t) (ref' : Ref) (r' : EKReminder.t) :
  lookupReminder st listName reminderName = Return (ref', r') ->
  lookupReminder (appendReminder ci r st) listName reminderName = Return (ref', r').
Proof.
  intros Hl. apply lookupReminder_Return in Hl as (c & rs & Hc & Hrs & Hr).
  apply lookupReminder_Return.
  pose proof (find_calendar_append st listName ci ref'.1 c r Hc) as Hc'.
  destruct (decide (ci = ref'.1)) as [->|Hne].
  - eexists _, (rs ++ [r]). split; [exact Hc'|]. simpl. rewrite Hrs.
    split; [done|]. by apply list_find_app_l.
  - by exists c, rs.
Qed.

Lemma lookup_new_after_append (st : EKEventStore.t) (listName title : string)
    (ci : nat) (c : EKCalendar.t) (rs : list EKReminder.t) (r : EKReminder.t) :
  list_find (fun c => EKCalendar.title c = listName) (EKEventStore.calendars st)
    = Some (ci, c) ->
  EKCalendar.reminders c = Some rs ->
  Forall (fun x => EKReminder.title x <> Some title) rs ->
  EKReminder.title r = Some title ->
  lookupReminder (appendReminder ci r st) listName title
  = Return ((ci, length rs), r).
Proof.
  intros Hc Hrs Hall Ht. apply lookupReminder_Return.
  pose proof (find_calendar_append st listName ci ci c r Hc) as Hc'.
  rewrite decide_True in Hc' by done.
  eexists _, (rs ++ [r]). split; [exact Hc'|]. simpl. rewrite Hrs.
  split; [done|].
  rewrite list_find_app_r
    by (by apply (list_find_None (fun x => EKReminder.title x = Some title))).
  simpl. rewrite decide_True by done. done.
Qed.

Section Add.
Context `{Platform}.

(** What a successful add did. *)
Lemma AddReminder_succeeded (st : EKEventStore.t) (listName title : string)
    (body dueDate : option string) :
  let added :=
    EKReminder.make (Some title) body false
      (match dueDate with
       | Some s => dateToComponents <$> dateFromString s
       | None => None
       end) 0 None None in
  succeeded (launch (AddReminder_run listName title body dueDate) st) ->
  exists ci c,
    list_find (fun c => EKCalendar.title c = listName) (EKEventStore.calendars st)
      = Some (ci, c)
    /\ match dueDate with
       | Some s => dateFromString s <> None
       | None => True
       end
    /\ calls (launch (AddReminder_run listName title body dueDate) st).2
       = [CallRequestAccess; CallCalendars; CallSave (nextRef ci st) added]
    /\ store (launch (AddReminder_run listName title body dueDate) st).2
       = appendReminder ci added st.
Proof.
  unfold launch, AddReminder_run, requestAccess, findList, saveNew, parseDate,
    outputSuccess, outputJSON.
  unfold mbind, Cmd_bind, mret, Cmd_ret, throw, call, getStore, putStore. simpl.
  destruct (EKEventStore.accessGranted st); simpl; [|by intros [[=] _]].
  destruct (list_find _ (EKEventStore.calendars st)) as [[ci c]|]; simpl;
    [|by intros [[=] _]].
  destruct dueDate as [s|]; [destruct (dateFromString s) as [d|] eqn:Hd|]; simpl;
    try (by intros [[=] _]);
    (destruct (commitError _ _); simpl; [by intros [[=] _]|]);
    intros _; exists ci, c; by rewrite ?Hd.
Qed.

(** X18. A successful add chooses the first list of that name and makes one
    save call, for a reminder with the given title and body, not completed,
    with priority 0, no alarm and no rule, and with the components of the
    parsed due date when one is given; it fetches nothing.  Afterwards the
    reminders of that list are the ones it had together with the new one
    (as a collection: nothing is said about the order the store lists them
    in), and the other lists are as they were.  So a title that no reminder
    of the list had resolves to the new reminder, and every name that
    resolved in the list still resolves. *)
Theorem add_reminder_effect (st : EKEventStore.t) (listName title : string)
    (body dueDate : option string) :
  let o := launch (AddReminder_run listName title body dueDate) st in
  let added :=
    EKReminder.make (Some title) body false
      (match dueDate with
       | Some s => dateToComponents <$> dateFromString s
       | None => None
       end) 0 None None in
  succeeded o ->
  exists ci c,
    EKEventStore.calendars st !! ci = Some c
    /\ EKCalendar.title c = listName
    /\ (forall j c', EKEventStore.calendars st !! j = Some c' -> (j < ci)%nat ->
                     EKCalendar.title c' <> listName)
    /\ (exists ref, calls o.2 = [CallRequestAccess; CallCalendars; CallSave ref added])
    /\ (forall j, j <> ci ->
          EKEventStore.calendars (store o.2) !! j = EKEventStore.calendars st !! j)
    /\ (forall rs,
          EKCalendar.reminders c = Some rs ->
          (exists c' rs',
             EKEventStore.calendars (store o.2) !! ci = Some c'
             /\ EKCalendar.title c' = listName
             /\ EKCalendar.reminders c' = Some rs'
             /\ Permutation rs' (added :: rs))
          /\ (Forall (fun x => EKReminder.title x <> Some title) rs ->
              exists ref, resolves (store o.2) listName title ref added)
          /\ (forall name ref r,
                resolves st listName name ref r ->
                exists ref' r', resolves (store o.2) listName name ref' r')).
Proof.
  intros o added Ho. subst o.
  apply AddReminder_succeeded in Ho as (ci & c & Hc & _ & Hcalls & Hst).
  rewrite Hst, Hcalls. clear Hst Hcalls. fold added.
  pose proof Hc as Hc0. apply list_find_Some in Hc0 as (Hci & Hct & Hfirst).
  exists ci, c. split; [done|]. split; [done|]. split; [done|].
  split; [by eexists|]. split.
  { intros j Hj. unfold appendReminder. simpl. by rewrite list_lookup_alter_ne. }
  intros rs Hrs. split; [|split].
  - eexists _, (rs ++ [added]). unfold appendReminder. simpl.
    rewrite list_lookup_alter, decide_True, Hci by done. simpl.
    split; [done|]. split; [done|]. rewrite Hrs. split; [done|].
    symmetry. apply Permutation_cons_append.
  - intros Hall. eexists. apply resolves_lookup.
    by eapply lookup_new_after_append.
  - intros name ref r Hr. exists ref, r.
    apply resolves_lookup. apply resolves_lookup in Hr.
    by apply lookup_after_append.
Qed.

(** X19. The failures of add leave the store alone.  With access granted, a
    list name no calendar has makes add throw [listNotFound]; a due date that
    does not parse makes it throw [invalidDate] once the list is found; in
    both cases nothing is saved and nothing is printed. *)
Theorem add_reminder_failures (st : EKEventStore.t) (listName title : string)
    (body dueDate : option string) :
  EKEventStore.accessGranted st = true ->
  let o := launch (AddReminder_run listName title body dueDate) st in
  (Forall (fun c => EKCalendar.title c <> listName) (EKEventStore.calendars st) ->
   o = (Throw (listNotFound listName),
        mkWorld st [CallRequestAccess; CallCalendars] []))
  /\ (forall s,
        dueDate = Some s -> dateFromString s = None ->
        Exists (fun c => EKCalendar.title c = listName) (EKEventStore.calendars st) ->
        o = (Throw (invalidDate s),
             mkWorld st [CallRequestAccess; CallCalendars] [])).
Proof.
  intros Hacc o. subst o.
  unfold launch, AddReminder_run, requestAccess, findList, saveNew, parseDate.
  unfold mbind, Cmd_bind, mret, Cmd_ret, throw, call, getStore, putStore. simpl.
  rewrite Hacc. simpl. split.
  - intros Hnone.
    apply (list_find_None (fun c => EKCalendar.title c = listName)) in Hnone.
    by rewrite Hnone.
  - intros s -> Hd Hex.
    destruct (list_find _ (EKEventStore.calendars st)) as [[ci c]|] eqn:Hfind; simpl.
    + by rewrite Hd.
    + apply (list_find_None (fun c => EKCalendar.title c = listName)) in Hfind.
      apply Exists_exists in Hex as (c & Hin & Hc).
      rewrite Forall_forall in Hfind. by destruct (Hfind c Hin).
Qed.

End Add.

(** * The AppleScript tools *)

Lemma splitFrom_step (cur : string) (a : ascii) (s : string) :
  ToolServer.splitFrom cur (String a s)
  = match s with
    | String b rest =>
        if Ascii.eqb a ","%char && Ascii.eqb b " "%char
        then cur :: ToolServer.splitFrom EmptyString rest
        else ToolServer.splitFrom (cur +:+ String a EmptyString) s
    | EmptyString => ToolServer.splitFrom (cur +:+ String a EmptyString) s
    end.
Proof.
  destruct a as [[] [] [] [] [] [] [] []]; try reflexivity;
    destruct s as [|b rest]; try reflexivity;
    destruct b as [[] [] [] [] [] [] [] []]; reflexivity.
Qed.

Lemma append_assoc_char (cur : string) (a : ascii) (s : string) :
  (cur +:+ String a EmptyString) +:+ s = cur +:+ String a s.
Proof.
  induction cur as [|c cur IH]; [reflexivity|].
  change (String c ((cur +:+ String a EmptyString) +:+ s) = String c (cur +:+ String a s)).
  by rewrite IH.
Qed.

Lemma splitFrom_cons (cur s : string) :
  exists piece rest, ToolServer.splitFrom cur s = piece :: rest.
Proof.
  revert cur. induction s as [|a s IH]; intros cur; [by eexists _, _|].
  rewrite splitFrom_step. destruct s as [|b rest]; [apply IH|].
  destruct (Ascii.eqb a ","%char && Ascii.eqb b " "%char); [by eexists _, _|apply IH].
Qed.

Lemma append_empty_r (s : string) : s +:+ EmptyString = s.
Proof.
  induction s as [|c s IH]; [reflexivity|].
  change (String c (s +:+ EmptyString) = String c s). by rewrite IH.
Qed.

Lemma join_cons (sep piece : string) (rest : list string) :
  rest <> [] ->
  AppleScriptTools.join sep (piece :: rest)
  = piece +:+ sep +:+ AppleScriptTools.join sep rest.
Proof. by destruct rest. Qed.

Lemma join_splitFrom (s cur : string) :
  AppleScriptTools.join ", " (ToolServer.splitFrom cur s) = cur +:+ s.
Proof.
  remember (String.length s) as n eqn:Hn. revert s cur Hn.
  induction n as [n IH] using Wf_nat.lt_wf_ind. intros s cur Hn.
  destruct s as [|a s]; [simpl; by rewrite append_empty_r|].
  rewrite splitFrom_step. destruct s as [|b rest]; [reflexivity|].
  simpl in Hn.
  destruct (Ascii.eqb a ","%char && Ascii.eqb b " "%char) eqn:Hsep.
  - apply andb_true_iff in Hsep as [Ha Hb].
    apply Ascii.eqb_eq in Ha, Hb. subst a b.
    destruct (splitFrom_cons EmptyString rest) as (piece & more & Hsplit).
    rewrite join_cons by (by rewrite Hsplit).
    rewrite (IH (String.length rest)) by (done || lia). reflexivity.
  - rewrite (IH (S (String.length rest))) by (done || lia).
    apply append_assoc_char.
Qed.

(** Splits on every character comparison of the goal. *)
Ltac split_eqb :=
  repeat match goal with
         | |- context [Ascii.eqb ?x ?y] => destruct (Ascii.eqb x y)
         end;
  reflexivity.

Lemma includes_cons (c : ascii) (s : string) :
  AppleScriptTools.includesCommaSpace (String c s)
  = match s with
    | String d _ =>
        (Ascii.eqb c ","%char && Ascii.eqb d " "%char)
        || AppleScriptTools.includesCommaSpace s
    | EmptyString => false
    end.
Proof. reflexivity. Qed.

Lemma append_cons (c : ascii) (s t : string) :
  String c s +:+ t = String c (s +:+ t).
Proof. reflexivity. Qed.

Lemma includes_snoc (cur : string) (a : ascii) :
  a <> " "%char ->
  AppleScriptTools.includesCommaSpace (cur +:+ String a EmptyString)
  = AppleScriptTools.includesCommaSpace cur.
Proof.
  intros Ha. induction cur as [|c cur IH]; [reflexivity|].
  destruct cur as [|d cur].
  - change (String c EmptyString +:+ String a EmptyString)
      with (String c (String a EmptyString)).
    rewrite !includes_cons.
    apply Ascii.eqb_neq in Ha. rewrite Ha, andb_false_r. reflexivity.
  - change (String c (String d cur) +:+ String a EmptyString)
      with (String c (String d (cur +:+ String a EmptyString))).
    rewrite (includes_cons c), (includes_cons c (String d cur)).
    f_equal. exact IH.
Qed.

Lemma includes_snoc2 (cur : string) (a b : ascii) :
  AppleScriptTools.includesCommaSpace (cur +:+ String a (String b EmptyString))
  = AppleScriptTools.includesCommaSpace (cur +:+ String a EmptyString)
    || (Ascii.eqb a ","%char && Ascii.eqb b " "%char).
Proof.
  induction cur as [|c cur IH].
  - change (EmptyString +:+ String a (String b EmptyString))
      with (String a (String b EmptyString)).
    change (EmptyString +:+ String a EmptyString) with (String a EmptyString).
    rewrite !includes_cons. split_eqb.
  - destruct cur as [|d cur].
    + change (String c EmptyString +:+ String a (String b EmptyString))
        with (String c (String a (String b EmptyString))).
      change (String c EmptyString +:+ String a EmptyString)
        with (String c (String a EmptyString)).
      rewrite !includes_cons. split_eqb.
    + change (String c (String d cur) +:+ String a (String b EmptyString))
        with (String c (String d (cur +:+ String a (String b EmptyString)))).
      change (String c (String d cur) +:+ String a EmptyString)
        with (String c (String d (cur +:+ String a EmptyString))).
      rewrite (includes_cons c (String d _)), (includes_cons c (String d _)).
      change (String d (cur +:+ String a (String b EmptyString)))
        with (String d cur +:+ String a (String b EmptyString)).
      change (String d (cur +:+ String a EmptyString))
        with (String d cur +:+ String a EmptyString).
      rewrite IH. by rewrite orb_assoc.
Qed.

(** No piece of a split contains the separator. *)
Lemma splitFrom_pieces (s cur : string) :
  AppleScriptTools.includesCommaSpace cur = false ->
  (forall rest, s = String " " rest ->
     AppleScriptTools.includesCommaSpace (cur +:+ " ") = false) ->
  Forall (fun piece => AppleScriptTools.includesCommaSpace piece = false)
    (ToolServer.splitFrom cur s).
Proof.
  remember (String.length s) as n eqn:Hn. revert s cur Hn.
  induction n as [n IH] using Wf_nat.lt_wf_ind. intros s cur Hn Hcur Hnext.
  destruct s as [|a s]; [by constructor|].
  rewrite splitFrom_step.
  assert (Hcur' : AppleScriptTools.includesCommaSpace (cur +:+ String a EmptyString)
                  = false).
  { destruct (decide (a = " "%char)) as [->|Hne]; [by eapply Hnext|].
    by rewrite includes_snoc. }
  simpl in Hn.
  destruct s as [|b rest].
  { apply (IH 0%nat); [lia|done|done|done]. }
  destruct (Ascii.eqb a ","%char && Ascii.eqb b " "%char) eqn:Hsep.
  - constructor; [done|].
    apply (IH (String.length rest)); [simpl in Hn; lia|done|done|by intros].
  - apply (IH (String.length (String b rest))); [lia|done|done|].
    intros rest' [= -> ->].
    rewrite append_assoc_char, includes_snoc2, Hcur'. simpl.
    apply andb_false_iff in Hsep as [Hsep|Hsep]; [by rewrite Hsep|done].
Qed.

Lemma pushIf_nil (field : option string) (command : string -> string)
    (updates : list string) :
  AppleScriptTools.pushIf field command updates = []
  <-> supplied field = false /\ updates = [].
Proof.
  unfold AppleScriptTools.pushIf, supplied.
  destruct field as [v|]; [destruct (ToolServer.truthy v)|].
  - split; [|by intros [[=] _]]. by destruct updates.
  - by split; [|intros [_ ?]].
  - by split; [|intros [_ ?]].
Qed.

Lemma updateCommands_nil (newName newBody appendBody newDueDate : option string) :
  AppleScriptTools.updateCommands newName newBody appendBody newDueDate = []
  <-> supplied newName = false /\ supplied newBody = false
      /\ supplied appendBody = false /\ supplied newDueDate = false.
Proof.
  unfold AppleScriptTools.updateCommands. rewrite !pushIf_nil. tauto.
Qed.

Section AppleScript.
Variable osascript : string -> ToolServer.Process.


(** X21. The AppleScript [update_reminder] answers "nothing to update"
    exactly when none of newName, newBody, appendBody and newDueDate is a
    non-empty string (an empty string counts as absent); in that case no
    script is run, so the answer is the same whatever osascript would do. *)
Theorem update_reminder_nothing_to_update (listName reminderName : string)
    (newName newBody appendBody newDueDate : option string) :
  AppleScriptTools.update_reminder osascript listName reminderName
    newName newBody appendBody newDueDate
  = ToolServer.Resolved (ToolServer.PlainText "更新する項目が指定されていません")
  <-> supplied newName = false /\ supplied newBody = false
      /\ supplied appendBody = false /\ supplied newDueDate = false.
Proof.
  rewrite <- updateCommands_nil.
  unfold AppleScriptTools.update_reminder.
  destruct (AppleScriptTools.updateCommands newName newBody appendBody newDueDate)
    as [|u us] eqn:Hu; [done|].
  simpl. split; [|done].
  by destruct (ToolServer.runAppleScript osascript _).
Qed.

End AppleScript.

(** * The further properties on the sample store *)

(** Closes [succeeded] of a run that computes. *)
Ltac run_succeeded :=
  split; [vm_compute; reflexivity | eexists; vm_compute; reflexivity].

Lemma run_fails_closed_witness :
  requestsAccess (SetPriority "Work" "Ship report" 3) = true
  /\ EKEventStore.accessGranted MoreScenarios.locked = false
  /\ launch (@run Sample.platform (SetPriority "Work" "Ship report" 3))
       MoreScenarios.locked
     = (Throw accessDenied, mkWorld MoreScenarios.locked [CallRequestAccess] []).
Proof.
  split; [reflexivity|]. split; [reflexivity|].
  exact (@run_fails_closed Sample.platform (SetPriority "Work" "Ship report" 3)
           MoreScenarios.locked eq_refl eq_refl).
Defined.

Lemma read_only_commands_witness :
  readOnly (GetLocation "Work" "Ship report") = true
  /\ store (launch (@run Sample.platform (GetLocation "Work" "Ship report"))
              Sample.store).2 = Sample.store.
Proof.
  split; [reflexivity|].
  exact (proj1 (@read_only_commands Sample.platform (GetLocation "Work" "Ship report")
                  Sample.store eq_refl)).
Defined.


Lemma toOutput_first_location_witness :
  ro_location (@toOutput Sample.platform Sample.shipReport)
  = Some (mkLocationInfo (Some "Office") (S754_finite false 35 0)
            (S754_finite false 139 0) (S754_finite false 50 0) "leave").
Proof.
  refine (proj1 (@toOutput_first_location Sample.platform Sample.shipReport
                   [EKAlarm.withAbsoluteDate 202403150900]
                   [EKAlarm.withAbsoluteDate 202403160900]
                   (EKAlarm.withLocation Sample.office ProximityLeave)
                   Sample.office
                   (CLLocation.make (S754_finite false 35 0) (S754_finite false 139 0))
                   eq_refl _ eq_refl eq_refl)).
  repeat constructor.
Defined.

Lemma get_reminders_output_witness :
  launch (@GetReminders_run Sample.platform "Work" false) Sample.store
  = (Return tt,
     mkWorld Sample.store [CallRequestAccess; CallCalendars; CallFetchReminders 1]
       [OutReminders
          (map (@toOutput Sample.platform) [Sample.shipReport; Sample.shipReport])]).
Proof.
  refine (@get_reminders_output Sample.platform Sample.store "Work" false 1
            Sample.work [Sample.archived; Sample.shipReport; Sample.shipReport]
            eq_refl eq_refl eq_refl _ eq_refl _).
  - intros j c' Hj Hlt. destruct j as [|j]; [|lia].
    injection Hj as <-. discriminate.
  - repeat constructor.
Defined.

Lemma set_then_get_recurrence_witness :
  succeeded MoreScenarios.recurred
  /\ stdout (launch (@GetRecurrence_run Sample.platform "Work" "Ship report")
               (store MoreScenarios.recurred.2)).2
     = [OutRecurrence (mkRecurrenceInfo "weekly" 2 None (Some 5) None)].
Proof.
  assert (H1 : succeeded MoreScenarios.recurred) by run_succeeded.
  split; [exact H1|].
  exact (proj2 (proj2 (@set_then_get_recurrence Sample.platform Sample.store
                         "Work" "Ship report" "Weekly" 2 (Some 5) None H1))).
Defined.

Lemma clear_recurrence_effect_witness :
  succeeded MoreScenarios.unrecurred
  /\ exists ref r0 r1,
       resolves Sample.store "Work" "Ship report" ref r0
       /\ resolves (store MoreScenarios.unrecurred.2) "Work" "Ship report" ref r1
       /\ EKReminder.ruleList r1 = []
       /\ ro_location (@toOutput Sample.platform r1)
          = ro_location (@toOutput Sample.platform r0).
Proof.
  assert (H1 : succeeded MoreScenarios.unrecurred) by run_succeeded.
  split; [exact H1|].
  destruct (@clear_recurrence_effect Sample.platform Sample.store "Work" "Ship report" H1)
    as (ref & r0 & r1 & Hr0 & Hr1 & _ & Hrules & _ & Hloc & _).
  exists ref, r0, r1. repeat split; assumption.
Defined.

Lemma set_location_effect_witness :
  succeeded MoreScenarios.located
  /\ stdout (launch (@GetLocation_run Sample.platform "Work" "Ship report")
               (store MoreScenarios.located.2)).2
     = [OutLocation (mkLocationInfo (Some "Station") (S754_finite false 35 0)
                       (S754_finite false 139 0) (S754_finite false 50 0) "leave")].
Proof.
  assert (H1 : succeeded MoreScenarios.located) by run_succeeded.
  split; [exact H1|].
  destruct (@set_location_effect Sample.platform Sample.store "Work" "Ship report"
              "Station" (S754_finite false 35 0) (S754_finite false 139 0)
              (S754_finite false 50 0) "LEAVE" H1)
    as (ref & r0 & r1 & p & _ & _ & _ & _ & _ & _ & _ & Hout).
  exact (proj2 (Hout eq_refl eq_refl eq_refl)).
Defined.

Lemma set_location_invalid_proximity_witness :
  @parseProximity Sample.platform "near" = None
  /\ store (launch (@SetLocation_run Sample.platform "Work" "Ship report" "Station"
                      (S754_finite false 35 0) (S754_finite false 139 0)
                      (S754_finite false 50 0) "near") Sample.store).2
     = Sample.store.
Proof.
  assert (H1 : @parseProximity Sample.platform "near" = None) by reflexivity.
  split; [exact H1|].
  exact (proj1 (@set_location_invalid_proximity Sample.platform Sample.store
                  "Work" "Ship report" "Station" (S754_finite false 35 0)
                  (S754_finite false 139 0) (S754_finite false 50 0) "near" H1)).
Defined.

Lemma set_priority_effect_witness :
  succeeded MoreScenarios.prioritised
  /\ exists ref r0,
       resolves Sample.store "Work" "Ship report" ref r0
       /\ resolves (store MoreScenarios.prioritised.2) "Work" "Ship report" ref
            (EKReminder.set_priority 42 r0).
Proof.
  assert (H1 : succeeded MoreScenarios.prioritised) by run_succeeded.
  split; [exact H1|].
  destruct (@set_priority_effect Sample.platform Sample.store "Work" "Ship report" 42 H1)
    as (ref & r0 & Hr0 & Hr1 & _).
  exists ref, r0. split; assumption.
Defined.

Lemma complete_effect_witness :
  succeeded MoreScenarios.completed
  /\ exists ref r0 r1,
       resolves Sample.store "Work" "Ship report" ref r0
       /\ resolves (store MoreScenarios.completed.2) "Work" "Ship report" ref r1
       /\ EKReminder.isCompleted r1 = true.
Proof.
  assert (H1 : succeeded MoreScenarios.completed) by run_succeeded.
  split; [exact H1|].
  destruct (@complete_effect Sample.platform Sample.store "Work" "Ship report" H1)
    as (ref & r0 & r1 & Hr0 & Hr1 & Heq & _).
  exists ref, r0, r1. split; [exact Hr0|]. split; [exact Hr1|].
  rewrite Heq. reflexivity.
Defined.

Lemma update_effect_witness :
  succeeded MoreScenarios.renamed
  /\ exists ref r0 r1,
       resolves Sample.store "Work" "Ship report" ref r0
       /\ reminderAt (store MoreScenarios.renamed.2) ref = Some r1
       /\ EKReminder.title r1 = Some "Ship it".
Proof.
  assert (H1 : succeeded MoreScenarios.renamed) by run_succeeded.
  split; [exact H1|].
  destruct (@update_effect Sample.platform Sample.store "Work" "Ship report"
              (Some "Ship it") None (Some "today") (Some "2024-03-15 09:00") H1)
    as (ref & r0 & r1 & Hr0 & Hat & Ht & _).
  exists ref, r0, r1. repeat split; assumption.
Defined.

Lemma update_rename_releases_name_witness :
  succeeded MoreScenarios.renamed
  /\ "Ship it" <> "Ship report"
  /\ exists ref r0,
       resolves Sample.store "Work" "Ship report" ref r0
       /\ forall ref' r',
            resolves (store MoreScenarios.renamed.2) "Work" "Ship report" ref' r' ->
            ref' <> ref.
Proof.
  assert (H1 : succeeded MoreScenarios.renamed) by run_succeeded.
  assert (H2 : "Ship it" <> "Ship report") by discriminate.
  split; [exact H1|]. split; [exact H2|].
  exact (@update_rename_releases_name Sample.platform Sample.store "Work"
           "Ship report" "Ship it" None (Some "today") (Some "2024-03-15 09:00")
           H1 H2).
Defined.

Lemma append_body_twice_witness :
  succeeded MoreScenarios.appendedOnce
  /\ succeeded MoreScenarios.appendedTwice
  /\ exists ref r0 r2,
       resolves Sample.store "Work" "Ship report" ref r0
       /\ resolves (store MoreScenarios.appendedTwice.2) "Work" "Ship report" ref r2
       /\ EKReminder.notes r2
          = Some ((orElse (EKReminder.notes r0) EmptyString +:+ LF +:+ "first")
                  +:+ LF +:+ "second").
Proof.
  assert (H1 : succeeded MoreScenarios.appendedOnce) by run_succeeded.
  assert (H2 : succeeded MoreScenarios.appendedTwice) by run_succeeded.
  split; [exact H1|]. split; [exact H2|].
  exact (@append_body_twice Sample.platform Sample.store "Work" "Ship report"
           "first" "second" H1 H2).
Defined.

Lemma add_reminder_effect_witness :
  succeeded MoreScenarios.added
  /\ exists ref,
       calls MoreScenarios.added.2
       = [CallRequestAccess; CallCalendars;
          CallSave ref (EKReminder.make (Some "Ship report") (Some "again") false
                          None 0 None None)].
Proof.
  assert (H1 : succeeded MoreScenarios.added) by run_succeeded.
  split; [exact H1|].
  destruct (@add_reminder_effect Sample.platform Sample.store "Work" "Ship report"
              (Some "again") None H1)
    as (ci & c & _ & _ & _ & Hcalls & _).
  exact Hcalls.
Defined.

Lemma add_reminder_failures_witness :
  EKEventStore.accessGranted Sample.store = true
  /\ launch (@AddReminder_run Sample.platform "Errands" "Buy milk" None None)
       Sample.store
     = (Throw (listNotFound "Errands"),
        mkWorld Sample.store [CallRequestAccess; CallCalendars] []).
Proof.
  split; [reflexivity|].
  refine (proj1 (@add_reminder_failures Sample.platform Sample.store "Errands"
                   "Buy milk" None None eq_refl) _).
  repeat constructor; discriminate.
Defined.

